(** * pdns-loadtest: a shallow embedding of [pdns-loadtest.py]

    The script drives a batch of zone creations and a batch of zone
    deletions against the PowerDNS HTTP API, sequentially or through a
    thread pool, and reduces the per-call outcomes to a metrics dictionary.

    Modelling choices, all visible in the definitions below:
    - Python [int] is [Z]; Python [float] durations (differences of
      [time.time()] readings) are exact rationals [Q]; the one place where
      binary64 rounding could matter (the median of two middle values) is
      additionally evaluated on primitive floats.
    - Everything outside the script (network, clock, random generator,
      thread scheduler) is an environment [Env] acting on an abstract world.
    - Methods of [PDNSLoadTest] are computations in a state-and-exception
      monad [M]; the state carries the world and the log of observable
      events (sessions opened, HTTP requests sent, lines printed).
    - The dictionaries returned by the batch methods are records whose
      optional keys are [option] fields. *)

From Stdlib Require Import List String Ascii ZArith QArith Lia Lqa Bool Arith.
From Stdlib Require Import Permutation Sorted PrimFloat.
Import ListNotations.

Local Open Scope string_scope.
Local Open Scope Z_scope.

(** ** Python built-ins used by the script *)

Module Py.

(** [s.startswith(p)] *)
Fixpoint startswith (s p : string) : bool :=
  match p, s with
  | EmptyString, _ => true
  | String c p', String d s' => Ascii.eqb c d && startswith s' p'
  | String _ _, EmptyString => false
  end.

(** [s.endswith(p)] *)
Definition endswith (s p : string) : bool :=
  let n := String.length s in
  let m := String.length p in
  (m <=? n)%nat && String.eqb (substring (n - m) m s) p.

(** [s.rstrip(c)] for a one-character argument *)
Fixpoint rstrip (c : ascii) (s : string) : string :=
  match s with
  | EmptyString => EmptyString
  | String d s' =>
      match rstrip c s' with
      | EmptyString => if Ascii.eqb d c then EmptyString else String d EmptyString
      | r => String d r
      end
  end.

Definition is_lower (c : ascii) : bool :=
  let n := nat_of_ascii c in ((97 <=? n) && (n <=? 122))%nat.

Definition is_upper (c : ascii) : bool :=
  let n := nat_of_ascii c in ((65 <=? n) && (n <=? 90))%nat.

Definition is_digit (c : ascii) : bool :=
  let n := nat_of_ascii c in ((48 <=? n) && (n <=? 57))%nat.

Definition upper (c : ascii) : ascii :=
  if is_lower c then ascii_of_nat (nat_of_ascii c - 32) else c.

Definition lower (c : ascii) : ascii :=
  if is_upper c then ascii_of_nat (nat_of_ascii c + 32) else c.

Fixpoint map_string (f : ascii -> ascii) (s : string) : string :=
  match s with
  | EmptyString => EmptyString
  | String c s' => String (f c) (map_string f s')
  end.

(** [s.capitalize()] *)
Definition capitalize (s : string) : string :=
  match s with
  | EmptyString => EmptyString
  | String c s' => String (upper c) (map_string lower s')
  end.

(** [''.join(chars)] *)
Definition join (cs : list ascii) : string := string_of_list_ascii cs.

(** [string.ascii_lowercase + string.digits] *)
Definition ascii_lowercase : string := "abcdefghijklmnopqrstuvwxyz".
Definition digits : string := "0123456789".

(** [range(n)] for an [int] [n]: empty when [n <= 0]. *)
Definition range (n : Z) : list nat := seq 0 (Z.to_nat n).

(** [len(l)] *)
Definition len {A} (l : list A) : Z := Z.of_nat (List.length l).

End Py.

(** ** Exceptions and results *)

Inductive exn : Type :=
| ValueError (msg : string)
| StatisticsError (msg : string)
| ZeroDivisionError
| KeyError (key : string)
| JSONDecodeError
| RuntimeError (msg : string)
| SystemExit (code : Z).

Inductive result (A : Type) : Type :=
| Ok (a : A)
| Raise (e : exn).
Arguments Ok {A} a.
Arguments Raise {A} e.

(** ** [min], [max] and the [statistics] module *)

Module Stats.

Section Generic.
Context {T : Type}.
Variable leb : T -> T -> bool.
(** [halfsum a b] is [(a + b) / 2] in the arithmetic of [T]. *)
Variable halfsum : T -> T -> T.

(** [sorted(data)]: a stable insertion sort; an element goes after the
    elements that are not greater than it. *)
Fixpoint insert (x : T) (l : list T) : list T :=
  match l with
  | [] => [x]
  | y :: l' => if leb y x then y :: insert x l' else x :: l
  end.

Definition sorted (data : list T) : list T :=
  fold_left (fun acc x => insert x acc) data [].

(** [statistics.median]:
<<
    data = sorted(data); n = len(data)
    if n == 0: raise StatisticsError("no median for empty data")
    if n % 2 == 1: return data[n // 2]
    else: i = n // 2; return (data[i - 1] + data[i]) / 2
>> *)
Definition median_by (data : list T) : result T :=
  let data := sorted data in
  let n := List.length data in
  match data with
  | [] => Raise (StatisticsError "no median for empty data")
  | d :: _ =>
      if Nat.eqb (n mod 2) 1 then Ok (nth (n / 2) data d)
      else let i := (n / 2)%nat in
           Ok (halfsum (nth (i - 1) data d) (nth i data d))
  end.

(** [min(l)] and [max(l)]: the first least (greatest) element;
    [ValueError] on an empty sequence. *)
Definition min_by (l : list T) : result T :=
  match l with
  | [] => Raise (ValueError "min() arg is an empty sequence")
  | x :: l' => Ok (fold_left (fun m y => if leb m y then m else y) l' x)
  end.

Definition max_by (l : list T) : result T :=
  match l with
  | [] => Raise (ValueError "max() arg is an empty sequence")
  | x :: l' => Ok (fold_left (fun m y => if leb y m then m else y) l' x)
  end.
End Generic.

(** The instances on rationals, used for the durations. *)
Definition Qhalfsum (a b : Q) : Q := ((a + b) / 2)%Q.
Definition min : list Q -> result Q := min_by Qle_bool.
Definition max : list Q -> result Q := max_by Qle_bool.
Definition median : list Q -> result Q := median_by Qle_bool Qhalfsum.

Definition sum (l : list Q) : Q := fold_left Qplus l 0%Q.

(** [statistics.mean]: the exact sum divided by the number of values;
    [StatisticsError] on empty data. *)
Definition mean (l : list Q) : result Q :=
  match l with
  | [] => Raise (StatisticsError "mean requires at least one data point")
  | _ => Ok (sum l / inject_Z (Py.len l))%Q
  end.

(** The median on binary64 floats, with IEEE addition and division. *)
Definition median_float : list float -> result float :=
  median_by PrimFloat.leb (fun a b => ((a + b) / 2)%float).

End Stats.

(** ** Data exchanged with the PowerDNS API *)

(** The JSON body of a zone creation ([zone_data] in [create_zone]). *)
Record ZoneData : Type := mkZoneData {
  zd_name : string;
  zd_kind : string;
  zd_nameservers : list string;
  zd_soa_edit_api : string;
  zd_soa_edit : string
}.

(** A listed zone is a JSON object, read here as a dictionary of strings. *)
Definition Zone : Type := list (string * string).

(** What the script reads of a [requests.Response]. [resp_json] is [None]
    when the body does not parse. *)
Record Response : Type := mkResponse {
  status_code : Z;
  text : string;
  resp_json : option (list Zone)
}.

(** [bool(response)] is [response.ok]: false for a 4xx or 5xx status. *)
Definition truthy (r : Response) : bool :=
  negb ((400 <=? status_code r) && (status_code r <? 600)).

(** One call of [session.get/post/put/delete]. *)
Record Request : Type := mkRequest {
  req_method : string;
  req_url : string;
  req_json : option ZoneData;
  req_timeout : Z;
  req_verify : bool
}.

(** The dictionary under the key ["response_times"]. *)
Record ResponseTimes : Type := mkResponseTimes {
  rt_min : Q;
  rt_max : Q;
  rt_avg : Q;
  rt_median : Q
}.

(** The metrics dictionary. The keys ["average_time_per_zone"] and
    ["response_times"] are absent from the dictionary that
    [delete_zones_with_prefix] returns early, hence the options. *)
Record Metrics : Type := mkMetrics {
  operation : string;
  total_zones : Z;
  successful : Z;
  failed : Z;
  total_time_seconds : Q;
  average_time_per_zone : option Q;
  response_times : option ResponseTimes
}.

(** The parsed command line ([argparse.Namespace]). *)
Record Args : Type := mkArgs {
  arg_url : string;
  arg_key : string;
  arg_server_id : string;
  arg_prefix : string;
  arg_count : Z;
  arg_timeout : Z;
  arg_no_verify_ssl : bool;
  arg_parallel : bool;
  arg_workers : Z;
  arg_create_only : bool;
  arg_delete_only : bool;
  arg_list_only : bool
}.

(** The attributes of a [PDNSLoadTest] object. *)
Record Client : Type := mkClient {
  api_url : string;
  api_key : string;
  zone_prefix : string;
  server_id : string;
  timeout : Z;
  verify_ssl : bool;
  max_workers : Z
}.

(** ** Observable events *)

(** Lines written by [print], by the statement that writes them; numbers are
    carried unformatted, [None] for a status stands for "No response", and
    [LConfiguration] is the block of lines that shows the configuration. *)
Inductive Line : Type :=
| LRequestError
| LListFailed (status : option Z)
| LCreateFailed (zone : string) (status : option Z) (error : string)
| LDeleteFailed (zone : string) (status : option Z) (error : string)
| LCreating (count : Z) (prefix : string)
| LNoZonesFound (prefix : string)
| LDeleting (count : Z) (prefix : string)
| LMetricsHeader (op : string)
| LTotalZones (n : Z)
| LSuccessful (n : Z)
| LFailed (n : Z)
| LTotalTime (t : Q)
| LAverageTime (t : Q)
| LResponseTimesHeader
| LMin (t : Q)
| LMax (t : Q)
| LAvg (t : Q)
| LMedian (t : Q)
| LSuccessRate (r : Q)
| LBothFlagsError
| LConfiguration (a : Args)
| LFound (n : Z) (prefix : string)
| LZoneName (zone : string).

Inductive Event : Type :=
| EvSession
| EvHttp (r : Request)
| EvPrint (l : Line).

(** ** The environment and the monad *)

(** Everything the script does not define. [http] answers a request, [None]
    standing for a raised [requests.RequestException] (retries happen inside
    it); [clock] is [time.time()]; [rand n] draws an index for a population
    of [n] elements, as [random.choices] does for each draw; [sched n] is the
    thread scheduler choosing among [n] enabled moves of the pool. *)
Record Env : Type := mkEnv {
  World : Type;
  http : World -> Request -> option Response * World;
  clock : World -> Q * World;
  rand : World -> nat -> nat * World;
  sched : World -> nat -> nat * World
}.

Section Program.

Variable E : Env.

Record State : Type := mkState {
  world : World E;
  events : list Event
}.

Definition M (A : Type) : Type := State -> result A * State.

Definition ret {A} (a : A) : M A := fun s => (Ok a, s).

Definition bind {A B} (c : M A) (k : A -> M B) : M B :=
  fun s => match c s with
           | (Ok a, s') => k a s'
           | (Raise e, s') => (Raise e, s')
           end.

Definition raise {A} (e : exn) : M A := fun s => (Raise e, s).

Definition lift {A} (r : result A) : M A := fun s => (r, s).

Definition emit (ev : Event) : M unit :=
  fun s => (Ok tt, mkState (world s) (events s ++ [ev])).

Definition print (l : Line) : M unit := emit (EvPrint l).

Definition with_world {A} (f : World E -> A * World E) : M A :=
  fun s => let (a, w) := f (world s) in (Ok a, mkState w (events s)).

Definition time_time : M Q := with_world (clock E).

Definition session_send (r : Request) : M (option Response) :=
  fun s => let (resp, w) := http E (world s) r in
           (Ok resp, mkState w (events s ++ [EvHttp r])).

End Program.

Arguments ret {E A} a.
Arguments bind {E A B} c k.
Arguments raise {E A} e.
Arguments lift {E A} r.
Arguments print {E} l.
Arguments emit {E} ev.
Arguments time_time {E}.
Arguments session_send {E} r.
Arguments with_world {E A} f.
Arguments world {E} s.
Arguments events {E} s.
Arguments mkState {E} world events.

Declare Scope monad_scope.
Delimit Scope monad_scope with monad.
Notation "x <- c ;; k" := (bind c (fun x => k))
  (at level 61, c at next level, right associativity) : monad_scope.
Notation "' pat <- c ;; k" := (bind c (fun x => match x with pat => k end))
  (at level 61, pat pattern, c at next level, right associativity) : monad_scope.
Notation "c ;;; k" := (bind c (fun _ => k))
  (at level 61, right associativity) : monad_scope.
Local Open Scope monad_scope.

(** ** [concurrent.futures.ThreadPoolExecutor]

    [executor.map(fn, xs)] submits one work item per element, in order; at
    most [max_workers] worker threads exist, a thread is only started while
    fewer than [max_workers] exist, and each thread takes one pending item at
    a time and runs [fn] on it to completion before it takes the next. Leaving
    the [with] block waits for every item; [list(...)] then reads the results
    in submission order and re-raises the first exception met.

    The pool is a transition system. A call of [fn] is active from the move
    [Start] that hands the item to a thread to the move [Finish] at which the
    call returns; its effect on the world takes place at [Finish]. *)

Section ThreadPool.

Variable E : Env.
Context {A R : Type}.
Variable fn : A -> M E R.
Variable max_workers : nat.

(** A work item is an argument with its position in the submission order;
    [finished] holds the items that were run, each with what its future
    holds: a value or an exception. *)
Record Pool : Type := mkPool {
  pending : list (nat * A);
  workers : list (option (nat * A));
  finished : list (nat * A * result R)
}.

Inductive Move : Type :=
| Spawn
| Start (t : nat)
| Finish (t : nat).

Fixpoint set_nth {X} (t : nat) (x : X) (l : list X) : list X :=
  match l, t with
  | [], _ => []
  | _ :: l', O => x :: l'
  | y :: l', S t' => y :: set_nth t' x l'
  end.

Definition busy (w : option (nat * A)) : bool :=
  match w with Some _ => true | None => false end.

(** The number of calls of [fn] in flight. *)
Definition active (p : Pool) : nat := List.length (filter busy (workers p)).

Definition pool_step (m : Move) (c : Pool * State E) : option (Pool * State E) :=
  let (p, s) := c in
  match m with
  | Spawn =>
      if (List.length (workers p) <? max_workers)%nat
      then Some (mkPool (pending p) (workers p ++ [None]) (finished p), s)
      else None
  | Start t =>
      match nth_error (workers p) t, pending p with
      | Some None, item :: rest =>
          Some (mkPool rest (set_nth t (Some item) (workers p)) (finished p), s)
      | _, _ => None
      end
  | Finish t =>
      match nth_error (workers p) t with
      | Some (Some (i, x)) =>
          let (r, s') := fn x s in
          Some (mkPool (pending p) (set_nth t None (workers p))
                       ((i, x, r) :: finished p), s')
      | _ => None
      end
  end.

(** The moves that can be made in a pool state. *)
Fixpoint thread_moves (t : nat) (ws : list (option (nat * A))) (more : bool)
  : list Move :=
  match ws with
  | [] => []
  | Some _ :: ws' => Finish t :: thread_moves (S t) ws' more
  | None :: ws' =>
      if more then Start t :: thread_moves (S t) ws' more
      else thread_moves (S t) ws' more
  end.

Definition enabled (p : Pool) : list Move :=
  (if (List.length (workers p) <? max_workers)%nat then [Spawn] else [])
  ++ thread_moves 0 (workers p)
       (match pending p with [] => false | _ => true end).

Definition pool_done (p : Pool) : bool :=
  match pending p with
  | [] => (active p =? 0)%nat
  | _ => false
  end.

(** The pool runs until every item is done; the scheduler of the
    environment picks each move among the enabled ones. [pool_run k c] is
    the state [k] moves after [c], or the final state if the run is over
    before. *)
Fixpoint pool_run (fuel : nat) (c : Pool * State E) : Pool * State E :=
  match fuel with
  | O => c
  | S fuel' =>
      if pool_done (fst c) then c
      else
        let moves := enabled (fst c) in
        let (i, w) := sched E (world (snd c)) (List.length moves) in
        let c' := (fst c, mkState w (events (snd c))) in
        match nth_error moves (i mod List.length moves) with
        | Some m =>
            match pool_step m c' with
            | Some c'' => pool_run fuel' c''
            | None => c'
            end
        | None => c'
        end
  end.

Definition pool_init (xs : list A) : Pool :=
  mkPool (combine (seq 0 (List.length xs)) xs) [] [].

Fixpoint future (i : nat) (fs : list (nat * A * result R)) : option (result R) :=
  match fs with
  | [] => None
  | (j, _, r) :: fs' => if (i =? j)%nat then Some r else future i fs'
  end.

(** Reading the results in submission order. *)
Fixpoint gather (ids : list nat) (fs : list (nat * A * result R))
  : result (list R) :=
  match ids with
  | [] => Ok []
  | i :: ids' =>
      match future i fs with
      | Some (Ok r) =>
          match gather ids' fs with
          | Ok rs => Ok (r :: rs)
          | Raise e => Raise e
          end
      | Some (Raise e) => Raise e
      | None => Raise (RuntimeError "work item was never run")
      end
  end.

(** [with ThreadPoolExecutor(max_workers) as ex: list(ex.map(fn, xs))] *)
Definition executor_map (xs : list A) : M E (list R) :=
  fun s =>
    let n := List.length xs in
    let (p, s') := pool_run (2 * n + max_workers) (pool_init xs, s) in
    (gather (seq 0 n) (finished p), s').

End ThreadPool.

Arguments mkPool {A R} pending workers finished.
Arguments pending {A R} p.
Arguments workers {A R} p.
Arguments finished {A R} p.
Arguments active {A R} p.
Arguments pool_done {A R} p.
Arguments pool_init {A R} xs.
Arguments pool_step {E A R} fn max_workers m c.
Arguments pool_run {E A R} fn max_workers fuel c.
Arguments executor_map {E A R} fn max_workers xs.
Arguments enabled {A R} max_workers p.
Arguments gather {A R} ids fs.
Arguments future {A R} i fs.
Arguments busy {A} w.

(** ** The class [PDNSLoadTest] *)

Section Client.

Variable E : Env.

(** [for x in xs: body], with the loop-carried variables as [acc]. *)
Fixpoint for_each {X Acc} (xs : list X) (acc : Acc) (body : Acc -> X -> M E Acc)
  : M E Acc :=
  match xs with
  | [] => ret acc
  | x :: xs' => acc' <- body acc x ;; for_each xs' acc' body
  end.

(** [[f(x) for x in xs]] *)
Fixpoint comprehension {X Y} (xs : list X) (f : X -> M E Y) : M E (list Y) :=
  match xs with
  | [] => ret []
  | x :: xs' => y <- f x ;; ys <- comprehension xs' f ;; ret (y :: ys)
  end.

(** [__init__]: the attributes, and a [requests.Session] with the retry
    adapter mounted and the default headers set. *)
Definition PDNSLoadTest_init (api_url api_key zone_prefix server_id : string)
    (timeout : Z) (verify_ssl : bool) (max_workers : Z) : M E Client :=
  emit EvSession ;;;
  ret (mkClient (Py.rstrip "/" api_url) api_key zone_prefix server_id
                timeout verify_ssl max_workers).

Definition known_method (method : string) : bool :=
  String.eqb method "GET" || String.eqb method "POST"
  || String.eqb method "PUT" || String.eqb method "DELETE".

Definition _make_request (self : Client) (method endpoint : string)
    (data : option ZoneData) : M E (option Response * Q) :=
  let url := api_url self ++ "/api/v1/servers/" ++ server_id self ++ "/" ++ endpoint in
  start_time <- time_time ;;
  if known_method method then
    let body :=
      if String.eqb method "POST" || String.eqb method "PUT" then data else None in
    response <- session_send
                  (mkRequest method url body (timeout self) (verify_ssl self)) ;;
    match response with
    | Some _ =>
        now <- time_time ;;
        ret (response, (now - start_time)%Q)
    | None =>
        print LRequestError ;;;
        now <- time_time ;;
        ret (None, (now - start_time)%Q)
    end
  else raise (ValueError "Unsupported HTTP method").

(** [response and response.status_code in codes] *)
Definition responded_with (response : option Response) (codes : list Z) : bool :=
  match response with
  | Some r => truthy r && existsb (Z.eqb (status_code r)) codes
  | None => false
  end.

(** [response.status_code if response else "No response"] *)
Definition status_or_none (response : option Response) : option Z :=
  match response with
  | Some r => if truthy r then Some (status_code r) else None
  | None => None
  end.

(** [response.text if response else "Unknown error"] *)
Definition text_or_unknown (response : option Response) : string :=
  match response with
  | Some r => if truthy r then text r else "Unknown error"
  | None => "Unknown error"
  end.

Definition list_zones (self : Client) : M E (list Zone * Q) :=
  '(response, response_time) <- _make_request self "GET" "zones" None ;;
  if responded_with response [200] then
    match response with
    | Some r =>
        match resp_json r with
        | Some zones => ret (zones, response_time)
        | None => raise JSONDecodeError
        end
    | None => ret ([], response_time)
    end
  else
    print (LListFailed (status_or_none response)) ;;;
    ret ([], response_time).

(** [zone_name] with a final dot. *)
Definition dotted (zone_name : string) : string :=
  if negb (Py.endswith zone_name ".") then zone_name ++ "." else zone_name.

Definition zone_data (zone_name : string) : ZoneData :=
  mkZoneData zone_name "Native" ["ns1.example.com."; "ns2.example.com."]
             "INCEPTION-INCREMENT" "INCEPTION-INCREMENT".

Definition create_zone (self : Client) (zone_name : string) : M E (bool * Q) :=
  let zone_name := dotted zone_name in
  '(response, response_time) <-
     _make_request self "POST" "zones" (Some (zone_data zone_name)) ;;
  if responded_with response [201; 200] then ret (true, response_time)
  else
    print (LCreateFailed zone_name (status_or_none response)
                         (text_or_unknown response)) ;;;
    ret (false, response_time).

Definition delete_zone (self : Client) (zone_name : string) : M E (bool * Q) :=
  let zone_name := dotted zone_name in
  '(response, response_time) <-
     _make_request self "DELETE" ("zones/" ++ zone_name) None ;;
  if responded_with response [204] then ret (true, response_time)
  else
    print (LDeleteFailed zone_name (status_or_none response)
                         (text_or_unknown response)) ;;;
    ret (false, response_time).

(** [zone[key]] *)
Fixpoint getitem (zone : Zone) (key : string) : result string :=
  match zone with
  | [] => Raise (KeyError key)
  | (k, v) :: zone' => if String.eqb k key then Ok v else getitem zone' key
  end.

(** [[zone["name"] for zone in zones if zone["name"].startswith(prefix)]] *)
Fixpoint names_with_prefix (prefix : string) (zones : list Zone)
  : result (list string) :=
  match zones with
  | [] => Ok []
  | zone :: zones' =>
      match getitem zone "name" with
      | Raise e => Raise e
      | Ok name =>
          match names_with_prefix prefix zones' with
          | Raise e => Raise e
          | Ok names =>
              Ok (if Py.startswith name prefix then name :: names else names)
          end
      end
  end.

Definition get_zones_with_prefix (self : Client) : M E (list string) :=
  '(zones, _) <- list_zones self ;;
  lift (names_with_prefix (zone_prefix self) zones).

(** [random.choices(population, k=k)] *)
Fixpoint choices (population : list ascii) (k : nat) : M E (list ascii) :=
  match k with
  | O => ret []
  | S k' =>
      i <- with_world (fun w => rand E w (List.length population)) ;;
      rest <- choices population k' ;;
      ret (nth (i mod List.length population) population "a"%char :: rest)
  end.

Definition alphabet : list ascii :=
  list_ascii_of_string (Py.ascii_lowercase ++ Py.digits).

Definition generate_random_suffix (self : Client) (length : nat) : M E string :=
  cs <- choices alphabet length ;;
  ret (Py.join cs).

(** The default of the [length] parameter. *)
Definition default_suffix_length : nat := 8.

(** [a / b] on numbers *)
Definition truediv (a b : Q) : result Q :=
  if Qeq_bool b 0 then Raise ZeroDivisionError else Ok (a / b)%Q.

(** [f(l) if l else 0] *)
Definition if_nonempty (f : list Q -> result Q) (l : list Q) : M E Q :=
  match l with
  | [] => ret 0%Q
  | _ => lift (f l)
  end.

(** The body shared by the two loops over the outcomes: the counters
    [successful], [failed] and the list [response_times]. *)
Definition tally (acc : Z * Z * list Q) (outcome : bool * Q) : Z * Z * list Q :=
  let '(successful, failed, response_times) := acc in
  let (success, response_time) := outcome in
  if success then (successful + 1, failed, (response_times ++ [response_time])%list)
  else (successful, failed + 1, (response_times ++ [response_time])%list).

(** The dictionary literal that ends [create_zones] and
    [delete_zones_with_prefix]. *)
Definition metrics_dict (op : string) (count : Z) (acc : Z * Z * list Q)
    (total_time : Q) : M E Metrics :=
  let '(successful, failed, response_times) := acc in
  average <- (if 0 <? count then lift (truediv total_time (inject_Z count))
              else ret 0%Q) ;;
  mn <- if_nonempty Stats.min response_times ;;
  mx <- if_nonempty Stats.max response_times ;;
  avg <- if_nonempty Stats.mean response_times ;;
  med <- if_nonempty Stats.median response_times ;;
  ret (mkMetrics op count successful failed total_time (Some average)
                 (Some (mkResponseTimes mn mx avg med))).

(** The two branches of [if parallel and self.max_workers > 1]. *)
Definition run_batch (self : Client) (parallel : bool)
    (call : string -> M E (bool * Q)) (names : list string)
  : M E (Z * Z * list Q) :=
  if parallel && (1 <? max_workers self) then
    results <- executor_map call (Z.to_nat (max_workers self)) names ;;
    for_each results (0, 0, []) (fun acc outcome => ret (tally acc outcome))
  else
    for_each names (0, 0, [])
      (fun acc zone_name =>
         outcome <- call zone_name ;;
         ret (tally acc outcome)).

Definition zone_names (self : Client) (count : Z) : M E (list string) :=
  comprehension (Py.range count)
    (fun _ => suffix <- generate_random_suffix self default_suffix_length ;;
              ret (zone_prefix self ++ suffix ++ ".com")).

(** From the [if parallel ...] to the [return metrics]: the same text in
    [create_zones] and in [delete_zones_with_prefix], up to the names of the
    variables, the called method and the value of ["operation"]. *)
Definition timed_batch (self : Client) (op : string) (count : Z)
    (parallel : bool) (call : string -> M E (bool * Q)) (names : list string)
    (start_time : Q) : M E Metrics :=
  acc <- run_batch self parallel call names ;;
  now <- time_time ;;
  metrics_dict op count acc (now - start_time)%Q.

Definition create_zones (self : Client) (count : Z) (parallel : bool)
  : M E Metrics :=
  print (LCreating count (zone_prefix self)) ;;;
  start_time <- time_time ;;
  names <- zone_names self count ;;
  timed_batch self "create" count parallel (create_zone self) names start_time.

Definition delete_zones_with_prefix (self : Client) (parallel : bool)
  : M E Metrics :=
  zones_to_delete <- get_zones_with_prefix self ;;
  let count := Py.len zones_to_delete in
  if count =? 0 then
    print (LNoZonesFound (zone_prefix self)) ;;;
    ret (mkMetrics "delete" 0 0 0 0%Q None None)
  else
    print (LDeleting count (zone_prefix self)) ;;;
    start_time <- time_time ;;
    timed_batch self "delete" count parallel (delete_zone self)
                zones_to_delete start_time.

(** [metrics[key]] for a key that may be absent *)
Definition metrics_get {X} (key : string) (v : option X) : result X :=
  match v with
  | Some x => Ok x
  | None => Raise (KeyError key)
  end.

Definition print_metrics (self : Client) (metrics : Metrics) : M E unit :=
  print (LMetricsHeader (Py.capitalize (operation metrics))) ;;;
  print (LTotalZones (total_zones metrics)) ;;;
  print (LSuccessful (successful metrics)) ;;;
  print (LFailed (failed metrics)) ;;;
  print (LTotalTime (total_time_seconds metrics)) ;;;
  (if 0 <? total_zones metrics then
     average <- lift (metrics_get "average_time_per_zone"
                                  (average_time_per_zone metrics)) ;;
     print (LAverageTime average) ;;;
     match response_times metrics with
     | Some rt =>
         print LResponseTimesHeader ;;;
         print (LMin (rt_min rt)) ;;;
         print (LMax (rt_max rt)) ;;;
         print (LAvg (rt_avg rt)) ;;;
         print (LMedian (rt_median rt))
     | None => ret tt
     end
   else ret tt) ;;;
  success_rate <-
    (if 0 <? total_zones metrics then
       q <- lift (truediv (inject_Z (successful metrics))
                          (inject_Z (total_zones metrics))) ;;
       ret (q * 100)%Q
     else ret 0%Q) ;;
  print (LSuccessRate success_rate).

(** ** [main], after [parse_arguments] has returned [args] *)

Definition main (args : Args) : M E unit :=
  (if arg_create_only args && arg_delete_only args then
     print LBothFlagsError ;;;
     raise (SystemExit 1)
   else ret tt) ;;;
  load_test <- PDNSLoadTest_init (arg_url args) (arg_key args) (arg_prefix args)
                 (arg_server_id args) (arg_timeout args)
                 (negb (arg_no_verify_ssl args)) (arg_workers args) ;;
  print (LConfiguration args) ;;;
  if arg_list_only args then
    zones <- get_zones_with_prefix load_test ;;
    print (LFound (Py.len zones) (arg_prefix args)) ;;;
    for_each zones tt (fun _ zone => print (LZoneName zone))
  else
    (if negb (arg_delete_only args) then
       create_metrics <- create_zones load_test (arg_count args) (arg_parallel args) ;;
       print_metrics load_test create_metrics
     else ret tt) ;;;
    (if negb (arg_create_only args) then
       delete_metrics <- delete_zones_with_prefix load_test (arg_parallel args) ;;
       print_metrics load_test delete_metrics
     else ret tt).

(** The exit status of the process: [sys.exit(n)] gives [n], an uncaught
    exception gives 1, a normal return gives 0. *)
Definition exit_status (r : result unit) : Z :=
  match r with
  | Ok _ => 0
  | Raise (SystemExit code) => code
  | Raise _ => 1
  end.

End Client.

(** ** A concrete environment

    A stateless server used to run the model on concrete inputs: the answer
    to a request and the time it takes (a whole number of seconds) depend on
    the request alone. The listing is fixed; a creation or deletion fails
    (status 500) when the character codes of what identifies the zone add up
    to a multiple of 3. *)

Module Demo.

Record W : Type := mkW {
  w_time : Z;
  w_seed : nat;
  w_turn : nat
}.

Fixpoint checksum (s : string) : nat :=
  match s with
  | EmptyString => 0
  | String c s' => nat_of_ascii c + checksum s'
  end.

Definition key (r : Request) : string :=
  match req_json r with
  | Some d => zd_name d
  | None => req_url r
  end.

Definition cost (r : Request) : Z := Z.of_nat (checksum (key r) mod 7) + 1.

Definition succeeds (r : Request) : bool := negb (checksum (key r) mod 3 =? 0)%nat.

Definition answer (listing : option Response) (r : Request) : option Response :=
  if String.eqb (req_method r) "GET" then listing
  else if succeeds r
       then if String.eqb (req_method r) "POST"
            then Some (mkResponse 201 "" None)
            else Some (mkResponse 204 "" None)
       else Some (mkResponse 500 "Internal Server Error" None).

Definition env (listing : option Response) : Env :=
  mkEnv W
    (fun w r => (answer listing r,
                 mkW (w_time w + cost r) (w_seed w) (w_turn w)))
    (fun w => (inject_Z (w_time w), w))
    (fun w _ => (w_seed w, mkW (w_time w) ((w_seed w * 7 + 5) mod 101) (w_turn w)))
    (fun w _ => (w_turn w, mkW (w_time w) (w_seed w) (w_turn w + 3))).

Definition zone (name : string) : Zone := [("name", name); ("kind", "Native")].

Definition listing (names : list string) : option Response :=
  Some (mkResponse 200 "" (Some (map zone names))).

Definition start (listing : option Response) : State (env listing) :=
  mkState (mkW 0 1 0 : World (env listing)) [].

Definition client (workers : Z) : Client :=
  mkClient "http://localhost:8081" "secret" "loadtest-" "localhost" 30 true workers.

Definition args (create_only delete_only : bool) : Args :=
  mkArgs "http://localhost:8081/" "secret" "localhost" "loadtest-" 3 30
         false true 2 create_only delete_only false.

(** What a call of [create_zone] and of [delete_zone] returns there. *)
Definition create_outcome (workers : Z) (name : string) : bool * Q :=
  let r := mkRequest "POST"
             "http://localhost:8081/api/v1/servers/localhost/zones"
             (Some (mkZoneData
                      (if negb (Py.endswith name ".") then name ++ "." else name)
                      "Native" ["ns1.example.com."; "ns2.example.com."]
                      "INCEPTION-INCREMENT" "INCEPTION-INCREMENT"))
             30 true in
  (succeeds r, inject_Z (cost r)).

Definition delete_outcome (workers : Z) (name : string) : bool * Q :=
  let r := mkRequest "DELETE"
             ("http://localhost:8081/api/v1/servers/localhost/zones/"
              ++ (if negb (Py.endswith name ".") then name ++ "." else name))
             None 30 true in
  (succeeds r, inject_Z (cost r)).

End Demo.

(** Inputs for the concrete runs. *)

Module Runs.

(** A server that lists four zones, three of them with the prefix; one that
    lists a single zone without the prefix; and one whose listing request
    gets no response. *)
Definition listed : option Response :=
  Demo.listing ["loadtest-a.com."; "other.org."; "loadtest-bcd.com.";
                "loadtest-zz.com."].
Definition unrelated : option Response := Demo.listing ["other.org."].
Definition silent : option Response := None.


End Runs.

(** ** What the statements below observe *)

(** The HTTP requests of an event log, oldest first. *)
Definition requests_of (evs : list Event) : list Request :=
  flat_map (fun ev => match ev with EvHttp r => [r] | _ => [] end) evs.

Definition is_delete (r : Request) : bool := String.eqb (req_method r) "DELETE".

(** The DELETE requests of an event log. *)
Definition delete_calls (evs : list Event) : list Request :=
  filter is_delete (requests_of evs).

Definition endpoint_url (self : Client) (endpoint : string) : string :=
  api_url self ++ "/api/v1/servers/" ++ server_id self ++ "/" ++ endpoint.

(** The requests that [list_zones], [create_zone] and [delete_zone] send. *)
Definition list_request (self : Client) : Request :=
  mkRequest "GET" (endpoint_url self "zones") None (timeout self) (verify_ssl self).

Definition create_request (self : Client) (zone_name : string) : Request :=
  mkRequest "POST" (endpoint_url self "zones")
            (Some (zone_data (dotted zone_name))) (timeout self) (verify_ssl self).

Definition delete_request (self : Client) (zone_name : string) : Request :=
  mkRequest "DELETE" (endpoint_url self ("zones/" ++ dotted zone_name)) None
            (timeout self) (verify_ssl self).

(** What the server answers to a request that [_make_request] sends when
    started in state [s] (the request is sent after one reading of the
    clock), and the duration that [_make_request] measures. *)
Definition request_response (E : Env) (s : State E) (r : Request)
  : option Response :=
  fst (http E (snd (clock E (world s))) r).

Definition request_duration (E : Env) (s : State E) (r : Request) : Q :=
  (fst (clock E (snd (http E (snd (clock E (world s))) r)))
   - fst (clock E (world s)))%Q.

(** The answer to the listing request of [list_zones]. *)
Definition listing_response (E : Env) (self : Client) (s : State E)
  : option Response :=
  request_response E s (list_request self).

(** The outcome records of a batch, in the order of the names: what the
    calls return, through the pool or one after the other. *)
Definition dispatch (E : Env) (self : Client) (parallel : bool)
    (call : string -> M E (bool * Q)) (names : list string)
  : M E (list (bool * Q)) :=
  if parallel && (1 <? max_workers self) then
    executor_map call (Z.to_nat (max_workers self)) names
  else comprehension E names call.

Definition successes (outcomes : list (bool * Q)) : Z :=
  Py.len (filter (fun o => fst o) outcomes).

Definition failures (outcomes : list (bool * Q)) : Z :=
  Py.len (filter (fun o => negb (fst o)) outcomes).

Definition durations (outcomes : list (bool * Q)) : list Q := map snd outcomes.

(** [rt] holds the minimum, maximum, mean and median of [ds]. *)
Definition stats_over (ds : list Q) (rt : ResponseTimes) : Prop :=
  Stats.min ds = Ok (rt_min rt) /\ Stats.max ds = Ok (rt_max rt) /\
  Stats.mean ds = Ok (rt_avg rt) /\ Stats.median ds = Ok (rt_median rt).

Definition zero_times : ResponseTimes := mkResponseTimes 0 0 0 0.

(** The dictionary of a delete batch that found nothing to delete. *)
Definition nothing_deleted : Metrics := mkMetrics "delete" 0 0 0 0%Q None None.

(** Two metrics dictionaries that agree on everything but the wall-clock
    entries. *)
Definition same_stats (m1 m2 : Metrics) : Prop :=
  operation m1 = operation m2 /\ total_zones m1 = total_zones m2 /\
  successful m1 = successful m2 /\ failed m1 = failed m2 /\
  response_times m1 = response_times m2.

(** ["average_time_per_zone"]: [total_time / count if count > 0 else 0]. *)
Definition average_of (total_time : Q) (count : Z) : Q :=
  if 0 <? count then (total_time / inject_Z count)%Q else 0%Q.

(** Two dictionaries that agree, and are equal as soon as their wall-clock
    times are. *)
Definition agree (m1 m2 : Metrics) : Prop :=
  same_stats m1 m2 /\
  (total_time_seconds m1 = total_time_seconds m2 -> m1 = m2).

(** Two results of a batch method that raise alike or agree. *)
Definition same_result (r1 r2 : result Metrics) : Prop :=
  match r1, r2 with
  | Ok m1, Ok m2 => agree m1 m2
  | Raise e1, Raise e2 => e1 = e2
  | _, _ => False
  end.

(** A character of [string.ascii_lowercase + string.digits]. *)
Definition alnum (c : ascii) : bool := Py.is_lower c || Py.is_digit c.

(** A string of exactly [n] lowercase letters and digits. *)
Definition suffix_of_length (n : nat) (s : string) : Prop :=
  String.length s = n /\ forallb alnum (list_ascii_of_string s) = true.

(** The form of a generated zone name. *)
Definition generated_name (prefix name : string) : Prop :=
  exists suffix,
    name = (prefix ++ suffix ++ ".com")%string /\ suffix_of_length 8 suffix.

(** A list of rationals in ascending order. *)
Definition ascending : list Q -> Prop := Sorted Qle.

(** The work items that the threads of a pool are running, the work items
    of a pool wherever they are, and the number of moves a pool has left at
    most. *)
Fixpoint running {A} (ws : list (option (nat * A))) : list (nat * A) :=
  match ws with
  | [] => []
  | Some item :: ws' => item :: running ws'
  | None :: ws' => running ws'
  end.

Definition items {A R} (p : Pool (A:=A) (R:=R)) : list (nat * A) :=
  (pending p ++ running (workers p) ++ map fst (finished p))%list.

Definition moves_left {A R} (max_workers : nat) (p : Pool (A:=A) (R:=R)) : nat :=
  2 * List.length (pending p) + active p
  + (max_workers - List.length (workers p)).

(** The work items of a pool as they are submitted, and what holds of a
    pool started on [xs] in state [s0] when every call returns a value that
    satisfies [Q] and sends the request [req_of]: the items are those
    submitted, the finished ones hold such a value, and the requests sent
    are those of the finished items. *)
Definition submitted {A} (xs : list A) : list (nat * A) :=
  combine (seq 0 (List.length xs)) xs.

Definition pool_inv {E : Env} {A R} (Q : A -> R -> Prop) (req_of : A -> Request)
    (xs : list A) (s0 : State E) (c : Pool (A:=A) (R:=R) * State E) : Prop :=
  Permutation (items (fst c)) (submitted xs) /\
  Forall (fun f => exists v, snd f = Ok v /\ Q (snd (fst f)) v) (finished (fst c)) /\
  Permutation (requests_of (events (snd c)))
    (requests_of (events s0)
     ++ map (fun f => req_of (snd (fst f))) (finished (fst c)))%list.

(** ** Further observations *)

(** The request that [_make_request] builds: only POST and PUT carry the
    body. *)
Definition built_request (self : Client) (method endpoint : string)
    (data : option ZoneData) : Request :=
  mkRequest method (endpoint_url self endpoint)
            (if (String.eqb method "POST" || String.eqb method "PUT")%bool
             then data else None)
            (timeout self) (verify_ssl self).

(** The client that [main] constructs from the command line. *)
Definition client_of (args : Args) : Client :=
  mkClient (Py.rstrip "/" (arg_url args)) (arg_key args) (arg_prefix args)
           (arg_server_id args) (arg_timeout args)
           (negb (arg_no_verify_ssl args)) (arg_workers args).

(** A string made of slashes only. *)
Definition slashes (t : string) : Prop :=
  forallb (Ascii.eqb "/") (list_ascii_of_string t) = true.

(** A response with a client or server error status. *)
Definition error_status (r : Response) : Prop := 400 <= status_code r < 600.

(** The lines that [print_metrics] writes for a dictionary without
    measurements. *)
Definition summary_lines (m : Metrics) (rate : Q) : list Event :=
  [EvPrint (LMetricsHeader (Py.capitalize (operation m)));
   EvPrint (LTotalZones (total_zones m));
   EvPrint (LSuccessful (successful m));
   EvPrint (LFailed (failed m));
   EvPrint (LTotalTime (total_time_seconds m));
   EvPrint (LSuccessRate rate)]%list.

(** What a call prints after the request: the transport failure, if any,
    then its own failure line, if it fails. *)
Definition call_lines (resp : option Response) (ok : bool) (failure : Line)
  : list Event :=
  (match resp with Some _ => [] | None => [EvPrint LRequestError] end
   ++ (if ok then [] else [EvPrint failure]))%list.

(** The success rate that [print_metrics] shows. *)
Definition success_rate (m : Metrics) : Q :=
  if 0 <? total_zones m
  then (inject_Z (successful m) / inject_Z (total_zones m) * 100)%Q
  else 0%Q.

(** The state in which [main], after the check of the flags, has built the
    client and printed the configuration. *)
Definition started {E : Env} (args : Args) (s : State E) : State E :=
  mkState (world s) (events s ++ [EvSession; EvPrint (LConfiguration args)])%list.

(** Servers that answer every request alike: with no response, with 201,
    with 503. The clock advances at each reading. *)
Module Sim.

Definition server (answer : Request -> option Response) : Env :=
  mkEnv Demo.W
    (fun w r => (answer r,
                 Demo.mkW (Demo.w_time w + 2) (Demo.w_seed w) (Demo.w_turn w)))
    (fun w => (inject_Z (Demo.w_time w),
               Demo.mkW (Demo.w_time w + 1) (Demo.w_seed w) (Demo.w_turn w)))
    (fun w _ => (Demo.w_seed w,
                 Demo.mkW (Demo.w_time w) ((Demo.w_seed w * 7 + 5) mod 101)
                          (Demo.w_turn w)))
    (fun w _ => (Demo.w_turn w,
                 Demo.mkW (Demo.w_time w) (Demo.w_seed w) (Demo.w_turn w + 3))).

Definition start (answer : Request -> option Response) : State (server answer) :=
  mkState (Demo.mkW 0 1 0 : World (server answer)) [].

Definition down (r : Request) : option Response := None.
Definition accepting (r : Request) : option Response :=
  Some (mkResponse 201 "" None).
Definition failing (r : Request) : option Response :=
  Some (mkResponse 503 "Service Unavailable" None).

(** A listing in which one zone object has no name. *)
Definition nameless_listing : option Response :=
  Some (mkResponse 200 "" (Some [Demo.zone "loadtest-a.com."; [("kind", "Native")]]%list)).

(** A listing whose body does not parse. *)
Definition garbled_listing : option Response := Some (mkResponse 200 "<html>" None).

(** A command line with the given three flags. *)
Definition args (create_only delete_only list_only : bool) : Args :=
  mkArgs "http://localhost:8081//" "secret" "localhost" "loadtest-" 2 30
         false false 2 create_only delete_only list_only.

End Sim.

(** ** Basic facts about the monad *)

Local Open Scope list_scope.

Section MonadFacts.

Variable E : Env.

Lemma bind_ok {A B} (c : M E A) (k : A -> M E B) s a s' :
  c s = (Ok a, s') -> bind c k s = k a s'.
Proof. intros H. unfold bind. now rewrite H. Qed.

Lemma bind_raise {A B} (c : M E A) (k : A -> M E B) s e s' :
  c s = (Raise e, s') -> bind c k s = (Raise e, s').
Proof. intros H. unfold bind. now rewrite H. Qed.

Lemma bind_ext {A B} (c : M E A) (k1 k2 : A -> M E B) s :
  (forall a s', k1 a s' = k2 a s') -> bind c k1 s = bind c k2 s.
Proof.
  intros H. unfold bind. destruct (c s) as [[a|e] s']; auto.
Qed.

Lemma bind_assoc {A B C} (c : M E A) (k : A -> M E B) (h : B -> M E C) s :
  bind (bind c k) h s = bind c (fun a => bind (k a) h) s.
Proof.
  unfold bind. destruct (c s) as [[a|e] s']; auto.
Qed.

Lemma requests_of_app l1 l2 :
  requests_of (l1 ++ l2) = requests_of l1 ++ requests_of l2.
Proof. unfold requests_of. apply flat_map_app. Qed.

Lemma delete_calls_app l1 l2 :
  delete_calls (l1 ++ l2) = delete_calls l1 ++ delete_calls l2.
Proof. unfold delete_calls. now rewrite requests_of_app, filter_app. Qed.

End MonadFacts.

(** ** Facts about [sorted], [min], [max], [mean] and [median] *)

Module StatsFacts.
Import Stats.

Section Generic.
Context {T : Type}.
Variable leb : T -> T -> bool.

Lemma insert_permutation x l : Permutation (insert leb x l) (x :: l).
Proof.
  induction l as [|y l IH]; simpl; auto.
  destruct (leb y x); auto.
  rewrite IH. apply perm_swap.
Qed.

Lemma sorted_from_permutation data acc :
  Permutation (fold_left (fun a x => insert leb x a) data acc) (data ++ acc).
Proof.
  revert acc. induction data as [|x data IH]; intros acc; simpl; auto.
  rewrite IH. rewrite insert_permutation.
  symmetry. apply Permutation_middle.
Qed.

Lemma sorted_permutation data : Permutation (sorted leb data) data.
Proof.
  unfold sorted. rewrite sorted_from_permutation. now rewrite app_nil_r.
Qed.

Lemma sorted_length data : List.length (sorted leb data) = List.length data.
Proof. apply Permutation_length, sorted_permutation. Qed.

Lemma sorted_nonempty x data : sorted leb (x :: data) <> [].
Proof.
  intros H. apply (f_equal (@List.length T)) in H.
  rewrite sorted_length in H. discriminate.
Qed.

Lemma median_by_ok halfsum x data :
  exists m, median_by leb halfsum (x :: data) = Ok m.
Proof.
  unfold median_by. pose proof (sorted_nonempty x data) as H.
  destruct (sorted leb (x :: data)) as [|d l]; [congruence|].
  destruct (Nat.eqb _ 1); eauto.
Qed.
End Generic.

Lemma Qle_bool_false x y : Qle_bool x y = false -> (y <= x)%Q.
Proof.
  intros H. apply Qlt_le_weak, Qnot_le_lt. intros Hle.
  apply Qle_bool_iff in Hle. congruence.
Qed.

Lemma insert_ascending x l : ascending l -> ascending (insert Qle_bool x l).
Proof.
  unfold ascending. induction 1 as [|y l Hs IH Hhd]; simpl.
  - repeat constructor.
  - destruct (Qle_bool y x) eqn:Hyx.
    + constructor; auto.
      destruct l as [|z l]; simpl.
      * constructor. now apply Qle_bool_iff.
      * inversion Hhd; subst. destruct (Qle_bool z x); constructor; auto.
        now apply Qle_bool_iff.
    + constructor.
      * constructor; auto.
      * constructor. now apply Qle_bool_false.
Qed.

Lemma sorted_ascending data : ascending (sorted Qle_bool data).
Proof.
  unfold sorted.
  assert (H : forall acc, ascending acc ->
            ascending (fold_left (fun a x => insert Qle_bool x a) data acc)).
  { induction data as [|x data IH]; intros acc Hacc; simpl; auto.
    apply IH, insert_ascending, Hacc. }
  apply H. constructor.
Qed.

(** [min] is below, and [max] above, every element. *)
Lemma min_fold_le l x y :
  y = x \/ In y l ->
  (fold_left (fun m z => if Qle_bool m z then m else z) l x <= y)%Q.
Proof.
  revert x y. induction l as [|z l IH]; intros x y Hy; simpl.
  - destruct Hy as [->|[]]. apply Qle_refl.
  - destruct (Qle_bool x z) eqn:Hxz.
    + destruct Hy as [->|[->|Hin]]; auto.
      apply Qle_trans with x; [apply IH; auto | now apply Qle_bool_iff].
    + destruct Hy as [->|[->|Hin]]; auto.
      apply Qle_trans with z; [apply IH; auto | now apply Qle_bool_false].
Qed.

Lemma max_fold_ge l x y :
  y = x \/ In y l ->
  (y <= fold_left (fun m z => if Qle_bool z m then m else z) l x)%Q.
Proof.
  revert x y. induction l as [|z l IH]; intros x y Hy; simpl.
  - destruct Hy as [->|[]]. apply Qle_refl.
  - destruct (Qle_bool z x) eqn:Hzx.
    + destruct Hy as [->|[->|Hin]]; auto.
      apply Qle_trans with x; [now apply Qle_bool_iff | apply IH; auto].
    + destruct Hy as [->|[->|Hin]]; auto.
      apply Qle_trans with z; [now apply Qle_bool_false | apply IH; auto].
Qed.

Lemma min_le l m y : min l = Ok m -> In y l -> (m <= y)%Q.
Proof.
  destruct l as [|x l]; simpl; [discriminate|].
  intros [= <-] [->|Hin]; apply min_fold_le; auto.
Qed.

Lemma max_ge l m y : max l = Ok m -> In y l -> (y <= m)%Q.
Proof.
  destruct l as [|x l]; simpl; [discriminate|].
  intros [= <-] [->|Hin]; apply max_fold_ge; auto.
Qed.

Lemma sum_from l a : (fold_left Qplus l a == a + sum l)%Q.
Proof.
  unfold sum. revert a. induction l as [|x l IH]; intros a; simpl.
  - ring.
  - rewrite IH. rewrite (IH (0 + x)%Q). ring.
Qed.


End StatsFacts.

(** ** Facts about the thread pool *)

Section PoolFacts.

Variable E : Env.
Context {A R : Type}.
Variable fn : A -> M E R.
Variable K : nat.

Local Abbreviation step := (pool_step fn K).
Local Abbreviation run := (pool_run fn K).

Lemma set_nth_length {X} t (x : X) l : List.length (set_nth t x l) = List.length l.
Proof.
  revert t. induction l as [|y l IH]; intros [|t]; simpl; auto.
Qed.

Lemma active_running (p : Pool (A:=A) (R:=R)) :
  active p = List.length (running (workers p)).
Proof.
  unfold active. induction (workers p) as [|[it|] ws IH]; simpl; auto.
Qed.


Lemma running_spawn (ws : list (option (nat * A))) :
  running (ws ++ [None]) = running ws.
Proof. induction ws as [|[it|] ws IH]; simpl; auto. now rewrite IH. Qed.

Lemma running_start t (item : nat * A) ws :
  nth_error ws t = Some None ->
  Permutation (running (set_nth t (Some item) ws)) (item :: running ws).
Proof.
  revert t. induction ws as [|w ws IH]; intros [|t]; simpl; try discriminate.
  - intros [= ->]. reflexivity.
  - intros H. destruct w as [it|]; simpl.
    + rewrite (IH _ H). apply perm_swap.
    + now apply IH.
Qed.

Lemma running_finish t (item : nat * A) ws :
  nth_error ws t = Some (Some item) ->
  Permutation (item :: running (set_nth t None ws)) (running ws).
Proof.
  revert t. induction ws as [|w ws IH]; intros [|t]; simpl; try discriminate.
  - intros [= ->]. reflexivity.
  - intros H. destruct w as [it|]; simpl.
    + rewrite perm_swap. now rewrite (IH _ H).
    + now apply IH.
Qed.

(** The three ways a move can be made. *)
Lemma step_cases m p s p' s' :
  step m (p, s) = Some (p', s') ->
  (m = Spawn /\ (List.length (workers p) < K)%nat /\
   p' = mkPool (pending p) (workers p ++ [None]) (finished p) /\ s' = s)
  \/ (exists t item rest,
        m = Start t /\ nth_error (workers p) t = Some None /\
        pending p = item :: rest /\
        p' = mkPool rest (set_nth t (Some item) (workers p)) (finished p) /\
        s' = s)
  \/ (exists t i x,
        m = Finish t /\ nth_error (workers p) t = Some (Some (i, x)) /\
        p' = mkPool (pending p) (set_nth t None (workers p))
                    ((i, x, fst (fn x s)) :: finished p) /\
        s' = snd (fn x s)).
Proof.
  destruct m as [|t|t]; simpl.
  - destruct (Nat.ltb_spec (List.length (workers p)) K); [|discriminate].
    intros [= <- <-]. left. auto.
  - destruct (nth_error (workers p) t) as [[it|]|] eqn:Hw; try discriminate.
    destruct (pending p) as [|item rest] eqn:Hp; [discriminate|].
    intros [= <- <-]. right; left. exists t, item, rest. auto.
  - destruct (nth_error (workers p) t) as [[[i x]|]|] eqn:Hw; try discriminate.
    destruct (fn x s) as [r s1] eqn:Hfn.
    intros [= <- <-]. right; right. exists t, i, x.
    rewrite Hfn. auto.
Qed.


Lemma step_items m p s p' s' :
  step m (p, s) = Some (p', s') -> Permutation (items p') (items p).
Proof.
  intros H. apply step_cases in H. unfold items.
  destruct H as [(_ & _ & -> & _) | [(t & it & rest & _ & Hw & Hp & -> & _)
                                    | (t & i & x & _ & Hw & -> & _)]]; simpl.
  - now rewrite running_spawn.
  - rewrite Hp. rewrite (running_start _ _ _ Hw). simpl.
    symmetry. apply Permutation_middle.
  - rewrite <- (running_finish _ _ _ Hw).
    apply Permutation_app_head. simpl.
    symmetry. apply Permutation_middle.
Qed.

Lemma step_moves_left m p s p' s' :
  step m (p, s) = Some (p', s') ->
  (moves_left K p' + 1 = moves_left K p)%nat.
Proof.
  intros H. apply step_cases in H. unfold moves_left.
  rewrite !active_running.
  destruct H as [(_ & Hlt & -> & _) | [(t & it & rest & _ & Hw & Hp & -> & _)
                                      | (t & i & x & _ & Hw & -> & _)]]; simpl.
  - rewrite running_spawn, length_app. simpl. lia.
  - rewrite Hp, set_nth_length.
    rewrite (Permutation_length (running_start _ _ _ Hw)). simpl. lia.
  - rewrite set_nth_length.
    rewrite <- (Permutation_length (running_finish _ _ _ Hw)). simpl. lia.
Qed.

(** Every enabled move can be made. *)
Lemma thread_moves_sound more (ws : list (option (nat * A))) t0 m :
  In m (thread_moves t0 ws more) ->
  (exists t, m = Start (t0 + t) /\ nth_error ws t = Some None /\ more = true)
  \/ (exists t item, m = Finish (t0 + t) /\ nth_error ws t = Some (Some item)).
Proof.
  revert t0. induction ws as [|w ws IH]; intros t0; simpl; [tauto|].
  assert (Hnext : In m (thread_moves (S t0) ws more) ->
    (exists t, m = Start (t0 + t) /\ nth_error (w :: ws) t = Some None /\ more = true)
    \/ (exists t item, m = Finish (t0 + t) /\ nth_error (w :: ws) t = Some (Some item))).
  { intros Hin. destruct (IH _ Hin) as [(t & -> & Hw & Hm) | (t & it & -> & Hw)].
    - left. exists (S t). repeat split; auto; f_equal; lia.
    - right. exists (S t), it. split; auto; f_equal; lia. }
  destruct w as [it|].
  - intros [<-|Hin]; auto.
    right. exists 0%nat, it. split; auto; f_equal; lia.
  - destruct more; auto.
    intros [<-|Hin]; auto.
    left. exists 0%nat. repeat split; auto; f_equal; lia.
Qed.

Lemma enabled_sound m p s :
  In m (enabled K p) -> exists c, step m (p, s) = Some c.
Proof.
  unfold enabled. intros Hin. apply in_app_or in Hin. destruct Hin as [Hin|Hin].
  - destruct (Nat.ltb_spec (List.length (workers p)) K) as [Hlt|]; [|destruct Hin].
    destruct Hin as [<-|[]]. simpl.
    apply Nat.ltb_lt in Hlt. rewrite Hlt. eauto.
  - apply thread_moves_sound in Hin.
    destruct Hin as [(t & -> & Hw & Hm) | (t & [i x] & -> & Hw)]; simpl.
    + rewrite Hw. destruct (pending p); [discriminate|]. eauto.
    + rewrite Hw. destruct (fn x s). eauto.
Qed.

Lemma thread_moves_all (ws : list (option (nat * A))) t0 :
  ws <> [] -> thread_moves t0 ws true <> [].
Proof. destruct ws as [|[it|] ws]; simpl; congruence. Qed.

Lemma thread_moves_busy (ws : list (option (nat * A))) t0 more :
  running ws <> [] -> thread_moves t0 ws more <> [].
Proof.
  revert t0. induction ws as [|[it|] ws IH]; intros t0; simpl; try congruence.
  intros H. destruct more; [discriminate|]. now apply IH.
Qed.

(** While work remains, some move is enabled. *)
Lemma enabled_nonempty (p : Pool (A:=A) (R:=R)) :
  (1 <= K)%nat -> pool_done p = false -> enabled K p <> [].
Proof.
  intros HK Hdone. unfold enabled.
  destruct (Nat.ltb_spec (List.length (workers p)) K) as [Hlt|Hge]; [discriminate|].
  simpl. unfold pool_done in Hdone.
  destruct (pending p) as [|item rest].
  - apply thread_moves_busy. rewrite active_running in Hdone.
    destruct (running (workers p)); [discriminate|congruence].
  - apply thread_moves_all. destruct (workers p); simpl in *; [lia|congruence].
Qed.

Lemma pool_run_invariant (P : Pool * State E -> Prop) :
  (forall p s w, P (p, s) -> P (p, mkState w (events s))) ->
  (forall m p s c, P (p, s) -> step m (p, s) = Some c -> P c) ->
  forall k c, P c -> P (run k c).
Proof.
  intros Hsched Hstep.
  induction k as [|k IH]; intros [p s] Hc; cbn [pool_run fst snd]; auto.
  destruct (pool_done p); auto.
  destruct (sched E (world s) (List.length (enabled K p))) as [i w].
  specialize (Hsched p s w Hc).
  destruct (nth_error (enabled K p) (i mod List.length (enabled K p))); auto.
  destruct (step m (p, mkState w (events s))) as [c|] eqn:Hm; auto.
  apply IH. exact (Hstep _ _ _ _ Hsched Hm).
Qed.


Lemma moves_left_zero (p : Pool (A:=A) (R:=R)) :
  moves_left K p = 0%nat -> pool_done p = true.
Proof.
  unfold moves_left, pool_done. intros H.
  destruct (pending p); simpl in *; [|lia].
  apply Nat.eqb_eq. lia.
Qed.

(** With at least one worker, a run of enough moves ends with every item
    done. *)
Lemma pool_run_finishes :
  (1 <= K)%nat ->
  forall k c, (moves_left K (fst c) <= k)%nat -> pool_done (fst (run k c)) = true.
Proof.
  intros HK.
  induction k as [|k IH]; intros [p s] Hk; cbn [pool_run fst snd] in *.
  - apply moves_left_zero. lia.
  - destruct (pool_done p) eqn:Hdone; auto.
    pose proof (enabled_nonempty p HK Hdone) as Hne.
    destruct (sched E (world s) (List.length (enabled K p))) as [i w].
    destruct (nth_error (enabled K p) (i mod List.length (enabled K p)))
      as [m|] eqn:Hnth.
    + destruct (enabled_sound m p (mkState w (events s))) as [[p' s'] Hm].
      { eapply nth_error_In; eauto. }
      rewrite Hm. apply IH. simpl.
      apply step_moves_left in Hm. lia.
    + apply nth_error_None in Hnth.
      assert (List.length (enabled K p) <> 0%nat)
        by (destruct (enabled K p); simpl; congruence).
      pose proof (Nat.mod_upper_bound i (List.length (enabled K p))). lia.
Qed.

(** *** The results of [executor_map] *)

Section Map.

(** What is known of a call: it returns a value that satisfies [Q] and
    sends the one request [req_of x]. *)
Variable Q : A -> R -> Prop.
Variable req_of : A -> Request.
Hypothesis fn_spec :
  forall x s, exists v s',
    fn x s = (Ok v, s') /\ Q x v /\
    requests_of (events s') = requests_of (events s) ++ [req_of x].

Variable xs : list A.
Variable s0 : State E.

Lemma pool_inv_init : (pool_inv Q req_of xs s0) (pool_init xs, s0).
Proof.
  unfold pool_inv, items; simpl. rewrite !app_nil_r. auto.
Qed.

Lemma pool_inv_step m p s c :
  (pool_inv Q req_of xs s0) (p, s) -> step m (p, s) = Some c -> (pool_inv Q req_of xs s0) c.
Proof.
  intros (Hit & Hok & Hreq) Hm. destruct c as [p' s'].
  pose proof (step_items _ _ _ _ _ Hm) as Hit'.
  apply step_cases in Hm. unfold pool_inv. simpl in *.
  split; [now rewrite Hit'|].
  destruct Hm as [(_ & _ & -> & ->) | [(t & it & rest & _ & _ & _ & -> & ->)
                                      | (t & i & x & _ & _ & -> & ->)]];
    simpl; auto.
  destruct (fn_spec x s) as (v & s1 & Hfn & HQ & Hlog). rewrite Hfn. simpl. split.
  - constructor; [exists v; auto | exact Hok].
  - rewrite Hlog, Hreq. rewrite <- app_assoc. apply Permutation_app_head.
    symmetry. apply Permutation_cons_append.
Qed.

Lemma pool_inv_run k : (pool_inv Q req_of xs s0) (run k (pool_init xs, s0)).
Proof.
  apply (pool_run_invariant (pool_inv Q req_of xs s0)).
  - intros p s w H. exact H.
  - intros m p s c. apply pool_inv_step.
  - apply pool_inv_init.
Qed.

Lemma submitted_nth i x :
  In (i, x) (submitted xs) -> nth_error xs i = Some x.
Proof.
  unfold submitted.
  assert (H : forall a, In (i, x) (combine (seq a (List.length xs)) xs) ->
                        (a <= i)%nat /\ nth_error xs (i - a) = Some x).
  { induction xs as [|y l IH]; intros a; simpl; [tauto|].
    intros [[= <- <-]|Hin].
    - rewrite Nat.sub_diag. auto.
    - apply IH in Hin. destruct Hin as [Hle Hn].
      split; [lia|]. replace (i - a)%nat with (S (i - S a)) by lia. exact Hn. }
  intros Hin. apply H in Hin. rewrite Nat.sub_0_r in Hin. tauto.
Qed.

Lemma nth_submitted i x :
  nth_error xs i = Some x -> In (i, x) (submitted xs).
Proof.
  unfold submitted.
  assert (H : forall a j, nth_error xs j = Some x ->
                          In ((a + j)%nat, x) (combine (seq a (List.length xs)) xs)).
  { induction xs as [|y l IH]; intros a [|j]; simpl; try discriminate.
    - intros [= ->]. left. f_equal. lia.
    - intros Hj. right. replace (a + S j)%nat with (S a + j)%nat by lia.
      now apply IH. }
  intros Hi. exact (H 0%nat i Hi).
Qed.

Lemma submitted_snd : map snd (submitted xs) = xs.
Proof.
  unfold submitted. generalize 0%nat.
  induction xs as [|y l IH]; intros a; simpl; auto. now rewrite IH.
Qed.

Lemma future_found i (fs : list (nat * A * result R)) :
  (exists x r, In (i, x, r) fs) ->
  exists x r, future i fs = Some r /\ In (i, x, r) fs.
Proof.
  induction fs as [|[[j y] r] fs IH]; simpl; intros (x & r0 & Hin); [tauto|].
  destruct (Nat.eqb_spec i j) as [->|Hne].
  - exists y, r. auto.
  - destruct Hin as [[= -> _ _]|Hin]; [congruence|].
    destruct IH as (x' & r' & Hf & Hin'); eauto.
Qed.

(** In a pool where every item is done, every future holds the value of
    the call on its own item. *)
Lemma done_future p s i x :
  (pool_inv Q req_of xs s0) (p, s) -> pool_done p = true -> nth_error xs i = Some x ->
  exists v, future i (finished p) = Some (Ok v) /\ Q x v.
Proof.
  intros (Hit & Hok & _) Hdone Hi. simpl in *.
  unfold pool_done in Hdone. unfold items in Hit.
  destruct (pending p) eqn:Hp; [|discriminate].
  apply Nat.eqb_eq in Hdone. rewrite active_running in Hdone.
  destruct (running (workers p)); [|discriminate]. simpl in Hit.
  assert (Hin : In (i, x) (map fst (finished p))).
  { eapply Permutation_in; [symmetry; exact Hit|]. now apply nth_submitted. }
  apply in_map_iff in Hin. destruct Hin as ([[j y] r] & [= -> ->] & Hin).
  destruct (future_found i (finished p)) as (x' & r' & Hf & Hin'); eauto.
  assert (Hx : nth_error xs i = Some x').
  { apply submitted_nth. eapply Permutation_in; [exact Hit|].
    apply in_map_iff. exists (i, x', r'). auto. }
  assert (x' = x) by congruence. subst x'.
  rewrite Forall_forall in Hok. destruct (Hok _ Hin') as (v & Hv & HQ).
  simpl in *. subst r'. eauto.
Qed.

Lemma gather_all (fs : list (nat * A * result R)) :
  forall l a,
    (forall i x, nth_error l i = Some x ->
                 exists v, future (a + i) fs = Some (Ok v) /\ Q x v) ->
    exists outs, gather (seq a (List.length l)) fs = Ok outs /\ Forall2 Q l outs.
Proof.
  induction l as [|y l IH]; intros a H; simpl.
  - exists []. auto.
  - destruct (H 0%nat y eq_refl) as (v & Hf & HQ).
    rewrite Nat.add_0_r in Hf. rewrite Hf.
    destruct (IH (S a)) as (outs & Hg & Hall).
    { intros i x Hi. replace (S a + i)%nat with (a + S i)%nat by lia.
      now apply H. }
    rewrite Hg. exists (v :: outs). auto.
Qed.

(** [executor_map] returns one value per item, in the order of the items,
    and the calls sent one request per item. *)
Lemma executor_map_spec :
  (1 <= K)%nat ->
  exists outs s',
    executor_map fn K xs s0 = (Ok outs, s') /\ Forall2 Q xs outs /\
    Permutation (requests_of (events s'))
                (requests_of (events s0) ++ map req_of xs).
Proof.
  intros HK. unfold executor_map.
  pose proof (pool_inv_run (2 * List.length xs + K)) as Hinv.
  pose proof (pool_run_finishes HK (2 * List.length xs + K) (pool_init xs, s0))
    as Hdone.
  destruct (run (2 * List.length xs + K) (pool_init xs, s0)) as [p s'].
  simpl in Hdone.
  assert (Hd : pool_done p = true).
  { apply Hdone. unfold moves_left, active. simpl.
    unfold submitted. rewrite length_combine, length_seq. lia. }
  destruct (gather_all (finished p) xs 0%nat) as (outs & Hg & Hall).
  { intros i x Hi. simpl. eapply done_future; eauto. }
  exists outs, s'. rewrite Hg. repeat split; auto.
  destruct Hinv as (Hit & _ & Hreq). simpl in *. rewrite Hreq.
  apply Permutation_app_head.
  unfold pool_done in Hd. unfold items in Hit.
  destruct (pending p); [|discriminate].
  apply Nat.eqb_eq in Hd. rewrite active_running in Hd.
  destruct (running (workers p)); [|discriminate]. simpl in Hit.
  transitivity (map (fun it => req_of (snd it)) (map fst (finished p))).
  - rewrite map_map. reflexivity.
  - rewrite (Permutation_map _ Hit).
    rewrite <- (map_map snd req_of), submitted_snd. reflexivity.
Qed.

End Map.

End PoolFacts.

(** ** Facts about the methods of the client *)

Section ClientFacts.

Variable E : Env.
Variable self : Client.

(** A request with a known method is sent once, after one reading of the
    clock; whatever comes back, [_make_request] returns. *)
Lemma make_request_spec method endpoint data req s :
  known_method method = true ->
  req = mkRequest method (endpoint_url self endpoint)
          (if (String.eqb method "POST" || String.eqb method "PUT")%bool
           then data else None)
          (timeout self) (verify_ssl self) ->
  exists d s',
    _make_request E self method endpoint data s
    = (Ok (fst (http E (snd (clock E (world s))) req), d), s') /\
    requests_of (events s') = requests_of (events s) ++ [req] /\
    (fst (http E (snd (clock E (world s))) req) <> None ->
     events s' = events s ++ [EvHttp req]).
Proof.
  intros Hm Hreq. unfold _make_request, bind, time_time, with_world, session_send.
  fold (endpoint_url self endpoint). rewrite Hm, <- Hreq.
  destruct (clock E (world s)) as [t0 w1]. cbn [world events snd fst].
  destruct (http E w1 req) as [[r|] w2]; cbn [world events snd fst].
  - destruct (clock E w2) as [t1 w3]. eexists _, _. split; [reflexivity|].
    cbn [events]. rewrite requests_of_app. auto.
  - unfold print, emit. cbn [world events].
    destruct (clock E w2) as [t1 w3]. eexists _, _. split; [reflexivity|].
    cbn [events]. rewrite !requests_of_app. simpl. rewrite app_nil_r.
    split; [reflexivity | congruence].
Qed.

(** What [_make_request] returns. *)
Lemma make_request_value method endpoint data req s :
  known_method method = true ->
  req = mkRequest method (endpoint_url self endpoint)
          (if (String.eqb method "POST" || String.eqb method "PUT")%bool
           then data else None)
          (timeout self) (verify_ssl self) ->
  fst (_make_request E self method endpoint data s)
  = Ok (request_response E s req, request_duration E s req).
Proof.
  intros Hm Hreq. unfold request_response, request_duration.
  unfold _make_request, bind, time_time, with_world, session_send.
  fold (endpoint_url self endpoint). rewrite Hm, <- Hreq.
  destruct (clock E (world s)) as [t0 w1]. cbn [world events snd fst].
  destruct (http E w1 req) as [[r|] w2]; cbn [world events snd fst].
  - destruct (clock E w2) as [t1 w3]. reflexivity.
  - unfold print, emit. cbn [world events].
    destruct (clock E w2) as [t1 w3]. reflexivity.
Qed.

Lemma print_run (l : Line) (s : State E) :
  print l s = (Ok tt, mkState (world s) (events s ++ [EvPrint l])).
Proof. reflexivity. Qed.

Lemma requests_of_printed evs l : requests_of (evs ++ [EvPrint l]) = requests_of evs.
Proof. rewrite requests_of_app. simpl. now rewrite app_nil_r. Qed.

(** [create_zone] returns an outcome and sends its one request. *)
Lemma create_zone_spec zone_name s :
  exists o s',
    create_zone E self zone_name s = (Ok o, s') /\
    requests_of (events s') = requests_of (events s) ++ [create_request self zone_name].
Proof.
  destruct (make_request_spec "POST" "zones"
              (Some (zone_data (dotted zone_name)))
              (create_request self zone_name) s eq_refl eq_refl)
    as (d & s1 & Hreq & Hlog & _).
  unfold create_zone. rewrite (bind_ok _ _ _ _ _ _ Hreq).
  destruct (responded_with _ [201; 200]).
  - eexists _, _. split; [reflexivity|]. exact Hlog.
  - unfold bind, ret. rewrite print_run.
    eexists _, _. split; [reflexivity|].
    cbn [events]. now rewrite requests_of_printed.
Qed.

(** The outcome that [create_zone] and [delete_zone] return: whether the
    response has an expected status, and the measured duration. *)
Lemma create_zone_value zone_name s :
  fst (create_zone E self zone_name s)
  = Ok (responded_with (request_response E s (create_request self zone_name))
                       [201; 200],
        request_duration E s (create_request self zone_name)).
Proof.
  pose proof (make_request_value "POST" "zones"
                (Some (zone_data (dotted zone_name)))
                (create_request self zone_name) s eq_refl eq_refl) as Hv.
  unfold create_zone, bind.
  destruct (_make_request E self "POST" "zones"
              (Some (zone_data (dotted zone_name))) s) as [[[resp d]|e] s1];
    simpl in Hv; [|discriminate].
  injection Hv as <- <-.
  destruct (responded_with resp [201; 200]); [reflexivity|].
  rewrite print_run. reflexivity.
Qed.

Lemma delete_zone_value zone_name s :
  fst (delete_zone E self zone_name s)
  = Ok (responded_with (request_response E s (delete_request self zone_name))
                       [204],
        request_duration E s (delete_request self zone_name)).
Proof.
  pose proof (make_request_value "DELETE" ("zones/" ++ dotted zone_name)%string
                None (delete_request self zone_name) s eq_refl eq_refl) as Hv.
  unfold delete_zone, bind.
  destruct (_make_request E self "DELETE" ("zones/" ++ dotted zone_name)%string
              None s) as [[[resp d]|e] s1];
    simpl in Hv; [|discriminate].
  injection Hv as <- <-.
  destruct (responded_with resp [204]); [reflexivity|].
  rewrite print_run. reflexivity.
Qed.

(** [delete_zone] returns an outcome and sends its one request. *)
Lemma delete_zone_spec zone_name s :
  exists o s',
    delete_zone E self zone_name s = (Ok o, s') /\
    requests_of (events s') = requests_of (events s) ++ [delete_request self zone_name].
Proof.
  destruct (make_request_spec "DELETE" ("zones/" ++ dotted zone_name)%string None
              (delete_request self zone_name) s eq_refl eq_refl)
    as (d & s1 & Hreq & Hlog & _).
  unfold delete_zone. rewrite (bind_ok _ _ _ _ _ _ Hreq).
  destruct (responded_with _ [204]).
  - eexists _, _. split; [reflexivity|]. exact Hlog.
  - unfold bind, ret. rewrite print_run.
    eexists _, _. split; [reflexivity|].
    cbn [events]. now rewrite requests_of_printed.
Qed.

(** The three ways [list_zones] can end; in each it has sent its one
    request. *)
Lemma list_zones_cases s :
  exists d s1,
    requests_of (events s1) = requests_of (events s) ++ [list_request self] /\
    ((responded_with (listing_response E self s) [200] = false /\
      list_zones E self s = (Ok ([], d), s1))
     \/ (responded_with (listing_response E self s) [200] = true /\
         exists r zones,
           listing_response E self s = Some r /\ resp_json r = Some zones /\
           list_zones E self s = (Ok (zones, d), s1))
     \/ (responded_with (listing_response E self s) [200] = true /\
         list_zones E self s = (Raise JSONDecodeError, s1))).
Proof.
  destruct (make_request_spec "GET" "zones" None (list_request self) s
              eq_refl eq_refl) as (d & s1 & Hreq & Hlog & _).
  change (fst (http E (snd (clock E (world s))) (list_request self)))
    with (listing_response E self s) in Hreq.
  unfold list_zones. rewrite (bind_ok _ _ _ _ _ _ Hreq).
  destruct (responded_with (listing_response E self s) [200]) eqn:Hresp.
  - destruct (listing_response E self s) as [r|]; [|discriminate].
    destruct (resp_json r) as [zones|] eqn:Hjson.
    + exists d, s1. split; auto. right; left. split; auto. exists r, zones. auto.
    + exists d, s1. split; auto.
  - unfold bind, ret. rewrite print_run.
    eexists d, _. split; [|left; split; reflexivity].
    cbn [events]. rewrite requests_of_printed. exact Hlog.
Qed.

(** A listing that got no response, or a status other than 200, is a
    failed listing. *)
Lemma failed_listing resp :
  resp = None \/ (exists r, resp = Some r /\ status_code r <> 200) ->
  responded_with resp [200] = false.
Proof.
  intros [->|(r & -> & Hst)]; simpl; auto.
  apply Z.eqb_neq in Hst. rewrite Hst. simpl. apply andb_false_r.
Qed.

Lemma get_zones_requests s r s1 :
  get_zones_with_prefix E self s = (r, s1) ->
  requests_of (events s1) = requests_of (events s) ++ [list_request self].
Proof.
  unfold get_zones_with_prefix.
  destruct (list_zones_cases s)
    as (d & s2 & Hlog & [(_ & H) | [(_ & r0 & z & _ & _ & H) | (_ & H)]]).
  - rewrite (bind_ok _ _ _ _ _ _ H). unfold lift. now intros [= _ <-].
  - rewrite (bind_ok _ _ _ _ _ _ H). unfold lift. now intros [= _ <-].
  - rewrite (bind_raise _ _ _ _ _ _ H). now intros [= _ <-].
Qed.

Lemma list_zones_failed_listing s :
  responded_with (listing_response E self s) [200] = false ->
  exists d s1, list_zones E self s = (Ok ([], d), s1).
Proof.
  intros Hresp.
  destruct (list_zones_cases s)
    as (d & s2 & _ & [(_ & H) | [(Ht & _) | (Ht & _)]]); try congruence.
  eauto.
Qed.

Lemma get_zones_failed_listing s :
  responded_with (listing_response E self s) [200] = false ->
  exists s1, get_zones_with_prefix E self s = (Ok [], s1).
Proof.
  intros Hresp. unfold get_zones_with_prefix.
  destruct (list_zones_failed_listing s Hresp) as (d & s1 & H).
  rewrite (bind_ok _ _ _ _ _ _ H). simpl. unfold lift. eauto.
Qed.

(** *** The loops over the outcomes *)

Lemma successes_cons (o : bool * Q) outs :
  successes (o :: outs) = (if fst o then 1 else 0) + successes outs.
Proof.
  unfold successes, Py.len. simpl. destruct (fst o); simpl List.length; lia.
Qed.

Lemma failures_cons (o : bool * Q) outs :
  failures (o :: outs) = (if fst o then 0 else 1) + failures outs.
Proof.
  unfold failures, Py.len. simpl. destruct (fst o); simpl List.length; lia.
Qed.

(** Every outcome is counted once, as a success or as a failure. *)
Lemma successes_failures outs : successes outs + failures outs = Py.len outs.
Proof.
  induction outs as [|o outs IH]; [reflexivity|].
  rewrite successes_cons, failures_cons. unfold Py.len in *. simpl List.length.
  destruct (fst o); lia.
Qed.

(** What the loop body leaves in the three variables. *)
Lemma tally_fold outs a b ts :
  fold_left tally outs (a, b, ts)
  = (a + successes outs, b + failures outs, ts ++ durations outs).
Proof.
  revert a b ts. induction outs as [|[ok d] outs IH]; intros a b ts; simpl.
  - unfold successes, failures, Py.len. simpl.
    now rewrite app_nil_r, !Z.add_0_r.
  - rewrite successes_cons, failures_cons. simpl fst.
    destruct ok; rewrite IH, <- app_assoc; cbv iota;
      rewrite ?Z.add_0_l, ?Z.add_assoc; reflexivity.
Qed.

Lemma for_each_results (results : list (bool * Q)) acc (s : State E) :
  for_each E results acc (fun a o => ret (tally a o)) s
  = (Ok (fold_left tally results acc), s).
Proof.
  revert acc. induction results as [|o l IH]; intros acc; simpl; auto.
  unfold bind, ret at 1. apply IH.
Qed.

(** Calling and counting in one loop is calling in a first loop and
    counting in a second one. *)
Lemma for_each_calls (call : string -> M E (bool * Q)) names acc s :
  for_each E names acc (fun a n => outcome <- call n ;; ret (tally a outcome)) s
  = (outs <- comprehension E names call ;; ret (fold_left tally outs acc)) s.
Proof.
  revert acc s. induction names as [|n names IH]; intros acc s; simpl; auto.
  rewrite !bind_assoc. apply bind_ext. intros o s1.
  etransitivity; [apply IH|].
  rewrite bind_assoc. apply bind_ext. reflexivity.
Qed.

Lemma run_batch_dispatch parallel call names s :
  run_batch E self parallel call names s
  = (outs <- dispatch E self parallel call names ;;
     ret (fold_left tally outs (0, 0, []))) s.
Proof.
  unfold run_batch, dispatch.
  destruct (parallel && (1 <? max_workers self))%bool.
  - apply bind_ext. intros outs s1. apply for_each_results.
  - apply for_each_calls.
Qed.

Section Calls.

Variable call : string -> M E (bool * Q).
Variable Q : string -> bool * Q -> Prop.
Variable req_of : string -> Request.
Hypothesis call_spec :
  forall x s, exists v s',
    call x s = (Ok v, s') /\ Q x v /\
    requests_of (events s') = requests_of (events s) ++ [req_of x].

Lemma comprehension_spec names s :
  exists outs s',
    comprehension E names call s = (Ok outs, s') /\ Forall2 Q names outs /\
    requests_of (events s') = requests_of (events s) ++ map req_of names.
Proof.
  revert s. induction names as [|n names IH]; intros s; simpl.
  - exists [], s. rewrite app_nil_r. auto.
  - destruct (call_spec n s) as (v & s1 & Hc & HQ & Hlog).
    destruct (IH s1) as (outs & s2 & Hrest & Hall & Hlog2).
    exists (v :: outs), s2. unfold bind, ret. rewrite Hc, Hrest.
    repeat split; auto.
    rewrite Hlog2, Hlog, <- app_assoc. reflexivity.
Qed.

(** One outcome per name, in the order of the names, and one request per
    name, in both modes. *)
Lemma dispatch_spec parallel names s :
  exists outs s',
    dispatch E self parallel call names s = (Ok outs, s') /\
    Forall2 Q names outs /\
    Permutation (requests_of (events s'))
                (requests_of (events s) ++ map req_of names).
Proof.
  unfold dispatch.
  destruct (parallel && (1 <? max_workers self))%bool eqn:Hpar.
  - apply executor_map_spec; auto.
    apply andb_true_iff in Hpar. destruct Hpar as [_ Hw].
    apply Z.ltb_lt in Hw. lia.
  - destruct (comprehension_spec names s) as (outs & s' & H & Hall & Hlog).
    exists outs, s'. rewrite Hlog. auto.
Qed.

Lemma run_batch_spec parallel names s :
  exists outs s',
    dispatch E self parallel call names s = (Ok outs, s') /\
    run_batch E self parallel call names s
    = (Ok (successes outs, failures outs, durations outs), s') /\
    Forall2 Q names outs /\
    Permutation (requests_of (events s'))
                (requests_of (events s) ++ map req_of names).
Proof.
  destruct (dispatch_spec parallel names s) as (outs & s' & H & Hall & Hlog).
  exists outs, s'. repeat split; auto.
  rewrite run_batch_dispatch, (bind_ok _ _ _ _ _ _ H).
  unfold ret. now rewrite tally_fold.
Qed.

End Calls.

(** *** The dictionary literal *)

Lemma truediv_count t count :
  0 < count -> truediv t (inject_Z count) = Ok (t / inject_Z count)%Q.
Proof.
  intros Hc. unfold truediv.
  destruct (Qeq_bool (inject_Z count) 0) eqn:Hq; auto.
  apply Qeq_bool_eq in Hq. unfold Qeq in Hq. simpl in Hq. lia.
Qed.

(** Building the dictionary raises nothing; the statistics are those of
    the list of durations, or zeros when the list is empty. *)
Lemma metrics_dict_spec op count a b ts t (s : State E) :
  exists rt,
    metrics_dict E op count (a, b, ts) t s
    = (Ok (mkMetrics op count a b t (Some (average_of t count)) (Some rt)), s) /\
    (ts = [] -> rt = zero_times) /\ (ts <> [] -> stats_over ts rt).
Proof.
  unfold metrics_dict.
  assert (Havg :
            (if 0 <? count then lift (truediv t (inject_Z count)) else ret 0%Q) s
            = (Ok (average_of t count), s)).
  { unfold average_of. destruct (Z.ltb_spec 0 count) as [Hc|Hc].
    - rewrite (truediv_count t count Hc). reflexivity.
    - reflexivity. }
  rewrite (bind_ok _ _ _ _ _ _ Havg). generalize (average_of t count). intros avg.
  destruct ts as [|x l].
  - exists zero_times. split; [reflexivity|]. split; congruence.
  - destruct (StatsFacts.median_by_ok Qle_bool Stats.Qhalfsum x l) as [med Hmed].
    fold (Stats.median (x :: l)) in Hmed.
    unfold if_nonempty, bind, lift. rewrite Hmed.
    unfold Stats.min, Stats.max, Stats.mean, Stats.min_by, Stats.max_by, ret.
    eexists (mkResponseTimes _ _ _ med). split; [reflexivity|].
    split; [congruence|]. intros _. unfold stats_over. simpl.
    repeat split; auto.
Qed.

(** *** A whole batch *)

Section Batch.

Variable call : string -> M E (bool * Q).
Variable Q : string -> bool * Q -> Prop.
Variable req_of : string -> Request.
Hypothesis call_spec :
  forall x s, exists v s',
    call x s = (Ok v, s') /\ Q x v /\
    requests_of (events s') = requests_of (events s) ++ [req_of x].

(** The batch returns a dictionary, whose counters count the outcome
    records that [dispatch] collects and whose statistics are those of the
    durations of all of them. *)
Lemma timed_batch_spec op count parallel names start_time s :
  exists outs s1 m s',
    dispatch E self parallel call names s = (Ok outs, s1) /\
    Forall2 Q names outs /\
    timed_batch E self op count parallel call names start_time s = (Ok m, s') /\
    operation m = op /\ total_zones m = count /\
    successful m = successes outs /\ failed m = failures outs /\
    (exists rt, response_times m = Some rt /\
                (outs = [] -> rt = zero_times) /\
                (outs <> [] -> stats_over (durations outs) rt)) /\
    average_time_per_zone m = Some (average_of (total_time_seconds m) count) /\
    events s' = events s1 /\
    Permutation (requests_of (events s'))
                (requests_of (events s) ++ map req_of names).
Proof.
  destruct (run_batch_spec call Q req_of call_spec parallel names s)
    as (outs & s1 & Hd & Hrun & Hall & Hlog).
  unfold timed_batch. rewrite (bind_ok _ _ _ _ _ _ Hrun).
  unfold bind at 1, time_time, with_world.
  destruct (clock E (world s1)) as [now w2].
  destruct (metrics_dict_spec op count (successes outs) (failures outs)
              (durations outs) (now - start_time)%Q
              (mkState w2 (events s1))) as (rt & Hm & Hnil & Hcons).
  rewrite Hm. eexists outs, s1, _, _. split; [exact Hd|]. split; [exact Hall|].
  split; [reflexivity|]. cbn [operation total_zones successful failed
                              response_times events average_time_per_zone
                              total_time_seconds].
  repeat split; auto.
  exists rt. split; auto. split.
  - intros ->. auto.
  - intros Hne. apply Hcons. destruct outs; [congruence|discriminate].
Qed.

End Batch.

(** Names are made of the prefix, eight characters of the alphabet and
    [.com]. *)
Lemma alphabet_alnum i : alnum (nth (i mod List.length alphabet) alphabet "a"%char) = true.
Proof.
  assert (H : forall j, (j < 36)%nat -> alnum (nth j alphabet "a"%char) = true).
  { intros j Hj. do 36 (destruct j as [|j]; [reflexivity|]). lia. }
  apply H. apply (Nat.mod_upper_bound i 36). discriminate.
Qed.

Lemma choices_spec k s :
  exists cs s',
    choices E alphabet k s = (Ok cs, s') /\ List.length cs = k /\
    forallb alnum cs = true /\ events s' = events s.
Proof.
  revert s. induction k as [|k IH]; intros s; cbn [choices].
  - exists [], s. auto.
  - unfold bind at 1, with_world.
    destruct (rand E (world s) (List.length alphabet)) as [i w].
    destruct (IH (mkState w (events s))) as (cs & s' & Hc & Hlen & Hall & Hev).
    unfold bind, ret. rewrite Hc.
    eexists _, s'. split; [reflexivity|]. cbn [List.length forallb].
    rewrite Hlen, Hall, alphabet_alnum. auto.
Qed.

Lemma generate_random_suffix_spec s :
  exists suffix s',
    generate_random_suffix E self default_suffix_length s = (Ok suffix, s') /\
    suffix_of_length 8 suffix /\ events s' = events s.
Proof.
  destruct (choices_spec default_suffix_length s) as (cs & s' & Hc & Hlen & Hall & Hev).
  unfold generate_random_suffix. rewrite (bind_ok _ _ _ _ _ _ Hc).
  exists (Py.join cs), s'. split; [reflexivity|]. split; auto.
  unfold suffix_of_length, Py.join.
  rewrite list_ascii_of_string_of_list_ascii. split; auto.
  unfold default_suffix_length in Hlen. rewrite <- Hlen.
  clear. induction cs; simpl; auto.
Qed.

Lemma zone_names_spec count s :
  exists names s',
    zone_names E self count s = (Ok names, s') /\
    List.length names = Z.to_nat count /\
    Forall (generated_name (zone_prefix self)) names /\
    events s' = events s.
Proof.
  unfold zone_names, Py.range. generalize 0%nat.
  revert s. induction (Z.to_nat count) as [|n IH]; intros s a;
    cbn [comprehension seq].
  - exists [], s. auto.
  - destruct (generate_random_suffix_spec s) as (suffix & s1 & Hg & Hsuf & Hev1).
    destruct (IH s1 (S a)) as (names & s2 & Hn & Hlen & Hall & Hev2).
    rewrite bind_assoc, (bind_ok _ _ _ _ _ _ Hg).
    unfold bind at 1, ret at 1. rewrite (bind_ok _ _ _ _ _ _ Hn).
    eexists _, s2. split; [reflexivity|]. simpl. repeat split; auto.
    + constructor; auto. exists suffix. auto.
    + congruence.
Qed.

End ClientFacts.

(** ** The two batch methods, from their first line to the batch proper *)

Section Batches.

Variable E : Env.
Variable self : Client.

Lemma create_zones_batch count s :
  exists names t0 s0,
    List.length names = Z.to_nat count /\
    requests_of (events s0) = requests_of (events s) /\
    forall parallel,
      create_zones E self count parallel s
      = timed_batch E self "create" count parallel (create_zone E self) names t0 s0.
Proof.
  destruct (clock E (world s)) as [t0 w1] eqn:Hclock.
  destruct (zone_names_spec E self count
              (mkState w1 (events s ++ [EvPrint (LCreating count (zone_prefix self))])))
    as (names & s0 & Hn & Hlen & _ & Hev).
  exists names, t0, s0. split; [exact Hlen|]. split.
  - rewrite Hev. cbn [events]. apply requests_of_printed.
  - intros parallel. unfold create_zones. unfold bind at 1. rewrite print_run.
    unfold bind at 1, time_time, with_world. cbn [world events].
    rewrite Hclock. now rewrite (bind_ok _ _ _ _ _ _ Hn).
Qed.

Lemma delete_zones_batch s zs s1 :
  get_zones_with_prefix E self s = (Ok zs, s1) -> zs <> [] ->
  exists t0 s0,
    requests_of (events s0) = requests_of (events s1) /\
    forall parallel,
      delete_zones_with_prefix E self parallel s
      = timed_batch E self "delete" (Py.len zs) parallel (delete_zone E self) zs t0 s0.
Proof.
  intros Hz Hne. unfold delete_zones_with_prefix.
  destruct (clock E (world s1)) as [t0 w1] eqn:Hclock.
  exists t0, (mkState w1 (events s1 ++ [EvPrint (LDeleting (Py.len zs) (zone_prefix self))])).
  split; [cbn [events]; apply requests_of_printed|].
  intros parallel. rewrite (bind_ok _ _ _ _ _ _ Hz).
  destruct (Z.eqb_spec (Py.len zs) 0) as [H0|_].
  { destruct zs; [congruence|]. unfold Py.len in H0. simpl in H0. lia. }
  unfold bind at 1. rewrite print_run.
  unfold bind at 1, time_time, with_world. cbn [world events].
  rewrite Hclock. reflexivity.
Qed.

(** With nothing to delete, the method returns its first dictionary right
    after the listing: no batch is run. *)
Lemma delete_zones_nothing parallel s s1 :
  get_zones_with_prefix E self s = (Ok [], s1) ->
  delete_zones_with_prefix E self parallel s
  = (Ok nothing_deleted,
     mkState (world s1) (events s1 ++ [EvPrint (LNoZonesFound (zone_prefix self))])).
Proof.
  intros Hz. unfold delete_zones_with_prefix.
  rewrite (bind_ok _ _ _ _ _ _ Hz). reflexivity.
Qed.

Lemma delete_zones_nothing_calls parallel s s1 :
  get_zones_with_prefix E self s = (Ok [], s1) ->
  exists s',
    delete_zones_with_prefix E self parallel s = (Ok nothing_deleted, s') /\
    requests_of (events s') = requests_of (events s) ++ [list_request self] /\
    delete_calls (events s') = delete_calls (events s).
Proof.
  intros Hz. rewrite (delete_zones_nothing parallel s s1 Hz).
  eexists. split; [reflexivity|]. cbn [events].
  assert (Hreq : requests_of (events s1 ++ [EvPrint (LNoZonesFound (zone_prefix self))])
                 = requests_of (events s) ++ [list_request self]).
  { rewrite requests_of_printed. eapply get_zones_requests; eauto. }
  split; [exact Hreq|].
  unfold delete_calls. rewrite Hreq, filter_app. simpl. apply app_nil_r.
Qed.

End Batches.

(** ** The properties of the batches *)

Section Properties.

Variable E : Env.
Variable self : Client.

Lemma create_call_spec x (s : State E) :
  exists v s',
    create_zone E self x s = (Ok v, s') /\ True /\
    requests_of (events s') = requests_of (events s) ++ [create_request self x].
Proof.
  destruct (create_zone_spec E self x s) as (v & s' & H & Hlog). eauto.
Qed.

Lemma delete_call_spec x (s : State E) :
  exists v s',
    delete_zone E self x s = (Ok v, s') /\ True /\
    requests_of (events s') = requests_of (events s) ++ [delete_request self x].
Proof.
  destruct (delete_zone_spec E self x s) as (v & s' & H & Hlog). eauto.
Qed.

Lemma batch_counts (call : string -> M E (bool * Q)) req_of op count parallel names t0 s :
  (forall x s, exists v s',
      call x s = (Ok v, s') /\ True /\
      requests_of (events s') = requests_of (events s) ++ [req_of x]) ->
  exists m s',
    timed_batch E self op count parallel call names t0 s = (Ok m, s') /\
    total_zones m = count /\
    successful m + failed m = Py.len names.
Proof.
  intros Hcall.
  destruct (timed_batch_spec E self call (fun _ _ => True) req_of Hcall
              op count parallel names t0 s)
    as (outs & s1 & m & s' & _ & Hall & Hm & _ & Ht & Hs & Hf & _).
  exists m, s'. repeat split; auto.
  rewrite Hs, Hf, successes_failures. unfold Py.len.
  now rewrite (Forall2_length Hall).
Qed.

(** C1. A create batch of [count >= 0] names and a delete batch of the
    listed names return, in sequential and in parallel mode, a dictionary
    whose [total_zones] is the number of names and whose [successful] and
    [failed] add up to it. *)
Theorem batch_counts_add_up (count : Z) (parallel : bool) (s : State E) :
  0 <= count ->
  (exists m s',
     create_zones E self count parallel s = (Ok m, s') /\
     total_zones m = count /\ successful m + failed m = count)
  /\
  (forall zs s1,
     get_zones_with_prefix E self s = (Ok zs, s1) ->
     exists m s',
       delete_zones_with_prefix E self parallel s = (Ok m, s') /\
       total_zones m = Py.len zs /\ successful m + failed m = Py.len zs).
Proof.
  intros Hcount. split.
  - destruct (create_zones_batch E self count s)
      as (names & t0 & s0 & Hlen & _ & Heq). rewrite Heq.
    destruct (batch_counts (create_zone E self) (create_request self) "create"
                count parallel names t0 s0 create_call_spec)
      as (m & s' & Hm & Ht & Hsum).
    exists m, s'. repeat split; auto.
    rewrite Hsum. unfold Py.len. rewrite Hlen. lia.
  - intros zs s1 Hz. destruct zs as [|z zs].
    + rewrite (delete_zones_nothing E self parallel s s1 Hz).
      eexists _, _. split; [reflexivity|]. auto.
    + destruct (delete_zones_batch E self s (z :: zs) s1 Hz)
        as (t0 & s0 & _ & Heq); [discriminate|]. rewrite Heq.
      apply (batch_counts (delete_zone E self) (delete_request self)).
      apply delete_call_spec.
Qed.



(** C3, as the code has it. A create batch with [count = 0] returns, in
    both modes, a dictionary with [total_zones = 0], no success, no failure
    and response times that are all zero. A delete batch that finds nothing
    to delete returns the dictionary [nothing_deleted]: zero counts and zero
    total time, and neither response times nor an average time per zone.
    Neither raises. *)
Theorem empty_batches (parallel : bool) (s : State E) :
  (exists m s',
     create_zones E self 0 parallel s = (Ok m, s') /\
     total_zones m = 0 /\ successful m = 0 /\ failed m = 0 /\
     response_times m = Some zero_times)
  /\
  (forall s1,
     get_zones_with_prefix E self s = (Ok [], s1) ->
     exists m s',
       delete_zones_with_prefix E self parallel s = (Ok m, s') /\
       total_zones m = 0 /\ successful m = 0 /\ failed m = 0 /\
       total_time_seconds m = 0%Q /\
       response_times m = None /\ average_time_per_zone m = None).
Proof.
  split.
  - destruct (create_zones_batch E self 0 s) as (names & t0 & s0 & Hlen & _ & Heq).
    rewrite Heq. destruct names; [|discriminate].
    destruct (timed_batch_spec E self (create_zone E self) (fun _ _ => True)
                (create_request self) create_call_spec
                "create" 0 parallel [] t0 s0)
      as (outs & s1 & m & s' & _ & Hall & Hm & _ & Ht & Hs & Hf & Hrt & _).
    inversion Hall; subst outs.
    destruct Hrt as (rt & Hrt & Hzero & _).
    exists m, s'. rewrite Hrt, (Hzero eq_refl). repeat split; auto.
  - intros s1 Hz. rewrite (delete_zones_nothing E self parallel s s1 Hz).
    eexists _, _. split; [reflexivity|]. repeat split.
Qed.

(** C7. When the listing, filtered by the prefix, has no name, the delete
    batch returns the dictionary with zero counts, and the only request it
    has sent is the listing: no DELETE request. *)
Theorem delete_nothing_is_noop (parallel : bool) (s s1 : State E) :
  get_zones_with_prefix E self s = (Ok [], s1) ->
  exists m s',
    delete_zones_with_prefix E self parallel s = (Ok m, s') /\
    total_zones m = 0 /\ successful m = 0 /\ failed m = 0 /\
    requests_of (events s') = requests_of (events s) ++ [list_request self] /\
    delete_calls (events s') = delete_calls (events s).
Proof.
  intros Hz.
  destruct (delete_zones_nothing_calls E self parallel s s1 Hz)
    as (s' & Hd & Hreq & Hdel).
  exists nothing_deleted, s'. repeat split; auto.
Qed.

(** C10. When the listing request gets no response, or a response whose
    status is not 200, [list_zones] returns the empty list without raising,
    [get_zones_with_prefix] returns the empty list, and
    [delete_zones_with_prefix] returns the dictionary with zero counts
    without sending a DELETE request. *)
Theorem failed_listing_deletes_nothing (parallel : bool) (s : State E) :
  listing_response E self s = None
  \/ (exists r, listing_response E self s = Some r /\ status_code r <> 200) ->
  (exists d s1, list_zones E self s = (Ok ([], d), s1)) /\
  (exists s2, get_zones_with_prefix E self s = (Ok [], s2)) /\
  (exists m s3,
     delete_zones_with_prefix E self parallel s = (Ok m, s3) /\
     total_zones m = 0 /\ successful m = 0 /\ failed m = 0 /\
     delete_calls (events s3) = delete_calls (events s)).
Proof.
  intros Hfail. apply failed_listing in Hfail.
  split; [now apply list_zones_failed_listing|].
  destruct (get_zones_failed_listing E self s Hfail) as (s2 & Hz).
  split; [eauto|].
  destruct (delete_zones_nothing_calls E self parallel s s2 Hz)
    as (s' & Hd & _ & Hdel).
  exists nothing_deleted, s'. repeat split; auto.
Qed.

(** C6, as the code has it. The create batch generates [count] names
    (none when [count] is negative); each is the configured prefix, then a
    suffix of 8 characters drawn from the lowercase letters and the digits,
    then [.com]. *)
Theorem generated_zone_names (count : Z) (s : State E) :
  exists names s',
    zone_names E self count s = (Ok names, s') /\
    List.length names = Z.to_nat count /\
    Forall (generated_name (zone_prefix self)) names.
Proof.
  destruct (zone_names_spec E self count s) as (names & s' & H & Hlen & Hall & _).
  eauto.
Qed.

Lemma Forall2_outcomes {X Y} (f : X -> Y) xs ys :
  Forall2 (fun x v => v = f x) xs ys -> ys = map f xs.
Proof. induction 1; simpl; congruence. Qed.

Lemma stats_unique outs rt1 rt2 :
  (outs = [] -> rt1 = zero_times) /\ (outs <> [] -> stats_over (durations outs) rt1) ->
  (outs = [] -> rt2 = zero_times) /\ (outs <> [] -> stats_over (durations outs) rt2) ->
  rt1 = rt2.
Proof.
  intros [Hn1 Hc1] [Hn2 Hc2]. destruct outs as [|o outs].
  - now rewrite Hn1, Hn2.
  - destruct (Hc1 ltac:(discriminate)) as (Ha1 & Hb1 & Hc1' & Hd1).
    destruct (Hc2 ltac:(discriminate)) as (Ha2 & Hb2 & Hc2' & Hd2).
    destruct rt1, rt2; simpl in *. congruence.
Qed.

(** Two modes of one batch, when the outcome of a call is a function of the
    name alone. *)
Lemma batch_modes_agree (call : string -> M E (bool * Q)) req_of outcome
      op count names t0 s :
  (forall x s, exists v s',
      call x s = (Ok v, s') /\ v = outcome x /\
      requests_of (events s') = requests_of (events s) ++ [req_of x]) ->
  exists m1 s1 m2 s2,
    timed_batch E self op count true call names t0 s = (Ok m1, s1) /\
    timed_batch E self op count false call names t0 s = (Ok m2, s2) /\
    agree m1 m2.
Proof.
  intros Hcall.
  destruct (timed_batch_spec E self call (fun x v => v = outcome x) req_of Hcall
              op count true names t0 s)
    as (o1 & u1 & m1 & s1 & _ & Hall1 & Hm1 & Hop1 & Ht1 & Hs1 & Hf1 & Hrt1 & Hav1 & _).
  destruct (timed_batch_spec E self call (fun x v => v = outcome x) req_of Hcall
              op count false names t0 s)
    as (o2 & u2 & m2 & s2 & _ & Hall2 & Hm2 & Hop2 & Ht2 & Hs2 & Hf2 & Hrt2 & Hav2 & _).
  apply Forall2_outcomes in Hall1, Hall2. subst o1 o2.
  destruct Hrt1 as (rt1 & Hrt1 & Hst1). destruct Hrt2 as (rt2 & Hrt2 & Hst2).
  pose proof (stats_unique _ _ _ Hst1 Hst2) as Hrt. subst rt2.
  exists m1, s1, m2, s2. split; [exact Hm1|]. split; [exact Hm2|].
  assert (Hsame : same_stats m1 m2).
  { unfold same_stats. repeat split; congruence. }
  split; [exact Hsame|]. intros Htime.
  destruct m1, m2; simpl in *. subst. f_equal; try tauto.
Qed.

(** C9. When the outcome of a call of [create_zone], and of
    [delete_zone], is determined by the name it is called on, the parallel
    and the sequential run of a batch, started in the same state, return
    dictionaries with the same operation, counts and response times; the
    dictionaries are equal when their wall-clock times are equal. A delete
    batch whose listing raises, raises alike in both modes. *)
Theorem modes_agree (create_outcome delete_outcome : string -> bool * Q)
    (count : Z) (s : State E) :
  (forall name s, fst (create_zone E self name s) = Ok (create_outcome name)) ->
  (forall name s, fst (delete_zone E self name s) = Ok (delete_outcome name)) ->
  (exists m1 s1 m2 s2,
     create_zones E self count true s = (Ok m1, s1) /\
     create_zones E self count false s = (Ok m2, s2) /\
     agree m1 m2)
  /\
  same_result (fst (delete_zones_with_prefix E self true s))
              (fst (delete_zones_with_prefix E self false s)).
Proof.
  intros Hcreate Hdelete. split.
  - destruct (create_zones_batch E self count s) as (names & t0 & s0 & _ & _ & Heq).
    rewrite !Heq.
    apply (batch_modes_agree (create_zone E self) (create_request self) create_outcome).
    intros x s1. destruct (create_zone_spec E self x s1) as (v & s' & Hc & Hlog).
    exists v, s'. repeat split; auto.
    specialize (Hcreate x s1). rewrite Hc in Hcreate. simpl in Hcreate. congruence.
  - destruct (get_zones_with_prefix E self s) as [[zs|e] s1] eqn:Hz.
    + destruct zs as [|z zs].
      * rewrite !(delete_zones_nothing E self _ s s1 Hz). simpl.
        split; [unfold same_stats|]; auto.
      * destruct (delete_zones_batch E self s (z :: zs) s1 Hz)
          as (t0 & s0 & _ & Heq); [discriminate|].
        rewrite !Heq.
        destruct (batch_modes_agree (delete_zone E self) (delete_request self)
                    delete_outcome "delete" (Py.len (z :: zs)) (z :: zs) t0 s0)
          as (m1 & u1 & m2 & u2 & H1 & H2 & Hag).
        { intros x u. destruct (delete_zone_spec E self x u) as (v & s' & Hc & Hlog).
          exists v, s'. repeat split; auto.
          specialize (Hdelete x u). rewrite Hc in Hdelete. simpl in Hdelete.
          congruence. }
        rewrite H1, H2. exact Hag.
    + unfold delete_zones_with_prefix.
      rewrite !(bind_raise _ _ _ _ _ _ Hz). simpl. reflexivity.
Qed.


(** C8. When both [--create-only] and [--delete-only] are given, [main]
    prints the error line and exits with status 1, and that line is all
    that has happened: no session was opened and no request was sent. *)
Theorem both_flags_exit (args : Args) (s : State E) :
  arg_create_only args = true -> arg_delete_only args = true ->
  exists s',
    main E args s = (Raise (SystemExit 1), s') /\
    exit_status (fst (main E args s)) = 1 /\
    events s' = events s ++ [EvPrint LBothFlagsError] /\
    world s' = world s.
Proof.
  intros Hc Hd. unfold main. rewrite Hc, Hd. simpl andb. cbv iota.
  eexists. split; [reflexivity|]. repeat split.
Qed.

End Properties.

(** ** The median *)

Lemma median_even_rule (ds : list Q) :
  ds <> [] -> Nat.even (List.length ds) = true ->
  Stats.median ds
  = Ok ((nth (List.length ds / 2 - 1) (Stats.sorted Qle_bool ds) 0
         + nth (List.length ds / 2) (Stats.sorted Qle_bool ds) 0) / 2)%Q.
Proof.
  intros Hne Heven. unfold Stats.median, Stats.median_by.
  pose proof (StatsFacts.sorted_length Qle_bool ds) as Hlen.
  destruct (Stats.sorted Qle_bool ds) as [|d l] eqn:Hs.
  { destruct ds; [congruence|discriminate]. }
  rewrite Hlen. apply Nat.even_spec in Heven. destruct Heven as [k Hk].
  assert (Hk0 : (0 < k)%nat) by (destruct ds; [congruence|simpl in Hk; lia]).
  rewrite Hk. replace (2 * k)%nat with (k * 2)%nat by lia.
  rewrite Nat.Div0.mod_mul, Nat.div_mul by discriminate. simpl Nat.eqb.
  unfold Stats.Qhalfsum. f_equal. f_equal; f_equal; apply nth_indep; lia.
Qed.

(** C5. The median of an even number of durations is the half-sum of the
    two middle values of the durations in ascending order, in the
    dictionary of a batch as well; the median of the durations 0.1, 0.2,
    0.3, 0.4 is 0.25, in exact arithmetic and in binary64 arithmetic. *)
Theorem median_of_even_length (E : Env) (ds : list Q) (op : string)
    (count a b : Z) (t : Q) (s : State E) :
  ds <> [] -> Nat.even (List.length ds) = true ->
  let ordered := Stats.sorted Qle_bool ds in
  let i := (List.length ds / 2)%nat in
  (Permutation ordered ds /\ ascending ordered /\
   Stats.median ds = Ok ((nth (i - 1) ordered 0 + nth i ordered 0) / 2)%Q /\
   exists m rt,
     metrics_dict E op count (a, b, ds) t s = (Ok m, s) /\
     response_times m = Some rt /\
     rt_median rt = ((nth (i - 1) ordered 0 + nth i ordered 0) / 2)%Q)
  /\
  (exists m rt,
     metrics_dict E op count (a, b, [0.1; 0.2; 0.3; 0.4]%Q) t s = (Ok m, s) /\
     response_times m = Some rt /\ (rt_median rt == 0.25)%Q)
  /\
  Stats.median_float [0.1; 0.2; 0.3; 0.4]%float = Ok 0.25%float.
Proof.
  intros Hne Heven ordered i. split; [|split].
  - split; [apply StatsFacts.sorted_permutation|].
    split; [apply StatsFacts.sorted_ascending|].
    pose proof (median_even_rule ds Hne Heven) as Hmed.
    split; [exact Hmed|].
    destruct (metrics_dict_spec E op count a b ds t s) as (rt & Hm & _ & Hst).
    destruct (Hst Hne) as (_ & _ & _ & Hmedian).
    eexists _, rt. split; [exact Hm|]. split; [reflexivity|].
    rewrite Hmed in Hmedian. subst ordered i. congruence.
  - destruct (metrics_dict_spec E op count a b [0.1; 0.2; 0.3; 0.4]%Q t s)
      as (rt & Hm & _ & Hst).
    destruct (Hst ltac:(discriminate)) as (_ & _ & _ & Hmedian).
    eexists _, rt. split; [exact Hm|]. split; [reflexivity|].
    assert (Hv : Stats.median [0.1; 0.2; 0.3; 0.4]%Q = Ok (Stats.Qhalfsum 0.2 0.3))
      by reflexivity.
    rewrite Hv in Hmedian. injection Hmedian as <-. reflexivity.
  - vm_compute. reflexivity.
Qed.

(** ** Runs in the concrete environment *)

Module DemoFacts.

Lemma duration (t c : Z) : (inject_Z (t + c) - inject_Z t)%Q = inject_Z c.
Proof.
  unfold Qminus, Qplus, Qopp, inject_Z. simpl. f_equal. lia.
Qed.

(** There the outcome of a call is a function of the name. *)
Lemma create_outcome listing k name s :
  fst (create_zone (Demo.env listing) (Demo.client k) name s)
  = Ok (Demo.create_outcome k name).
Proof.
  rewrite create_zone_value. destruct s as [[t seed turn] evs].
  unfold request_response, request_duration, Demo.create_outcome.
  cbn [Demo.env http clock world fst snd Demo.w_time].
  rewrite duration. f_equal. f_equal.
  unfold Demo.answer. cbn [req_method create_request].
  change (String.eqb "POST" "GET") with false. cbv iota.
  change (create_request (Demo.client k) name)
    with (mkRequest "POST"
            "http://localhost:8081/api/v1/servers/localhost/zones"
            (Some (mkZoneData
                     (if negb (Py.endswith name ".") then (name ++ ".")%string else name)
                     "Native" ["ns1.example.com."; "ns2.example.com."]
                     "INCEPTION-INCREMENT" "INCEPTION-INCREMENT"))
            30 true).
  destruct (Demo.succeeds _); reflexivity.
Qed.

Lemma delete_outcome listing k name s :
  fst (delete_zone (Demo.env listing) (Demo.client k) name s)
  = Ok (Demo.delete_outcome k name).
Proof.
  rewrite delete_zone_value. destruct s as [[t seed turn] evs].
  unfold request_response, request_duration, Demo.delete_outcome.
  cbn [Demo.env http clock world fst snd Demo.w_time].
  rewrite duration. f_equal. f_equal.
  unfold Demo.answer. cbn [req_method delete_request].
  change (String.eqb "DELETE" "GET") with false.
  change (String.eqb "DELETE" "POST") with false. cbv iota.
  change (delete_request (Demo.client k) name)
    with (mkRequest "DELETE"
            ("http://localhost:8081/api/v1/servers/localhost/zones/"
             ++ (if negb (Py.endswith name ".") then name ++ "." else name))%string
            None 30 true).
  destruct (Demo.succeeds _); reflexivity.
Qed.

End DemoFacts.

(** A create batch of three names and a delete batch of the three listed
    names with the prefix, through the pool. *)
Lemma batch_counts_add_up_witness :
  0 <= 3 /\
  (exists m s',
     create_zones (Demo.env Runs.listed) (Demo.client 2) 3 true
                  (Demo.start Runs.listed) = (Ok m, s') /\
     total_zones m = 3 /\ successful m + failed m = 3) /\
  (exists m s',
     delete_zones_with_prefix (Demo.env Runs.listed) (Demo.client 2) true
                              (Demo.start Runs.listed) = (Ok m, s') /\
     total_zones m = 3 /\ successful m + failed m = 3).
Proof.
  assert (H3 : 0 <= 3) by lia.
  destruct (batch_counts_add_up (Demo.env Runs.listed) (Demo.client 2) 3 true
              (Demo.start Runs.listed) H3) as [Hc Hd].
  split; [exact H3|]. split; [exact Hc|].
  apply (Hd ["loadtest-a.com."; "loadtest-bcd.com."; "loadtest-zz.com."]%string
            (snd (get_zones_with_prefix (Demo.env Runs.listed) (Demo.client 2)
                    (Demo.start Runs.listed)))).
  vm_compute. reflexivity.
Defined.


(** A create batch of no name, and a delete batch when the only listed
    zone is without the prefix. *)
Lemma empty_batches_witness :
  (exists m s',
     create_zones (Demo.env Runs.unrelated) (Demo.client 2) 0 true
                  (Demo.start Runs.unrelated) = (Ok m, s') /\
     total_zones m = 0 /\ successful m = 0 /\ failed m = 0 /\
     response_times m = Some zero_times) /\
  (exists m s',
     delete_zones_with_prefix (Demo.env Runs.unrelated) (Demo.client 2) true
                              (Demo.start Runs.unrelated) = (Ok m, s') /\
     total_zones m = 0 /\ successful m = 0 /\ failed m = 0 /\
     total_time_seconds m = 0%Q /\
     response_times m = None /\ average_time_per_zone m = None).
Proof.
  destruct (empty_batches (Demo.env Runs.unrelated) (Demo.client 2) true
              (Demo.start Runs.unrelated)) as [Hc Hd].
  split; [exact Hc|].
  apply (Hd (snd (get_zones_with_prefix (Demo.env Runs.unrelated) (Demo.client 2)
                    (Demo.start Runs.unrelated)))).
  vm_compute. reflexivity.
Defined.

(** C3, as it is stated, fails on a delete batch: the dictionary returned
    when nothing is to be deleted has no response times, so they are not
    all zero. *)
Lemma empty_delete_has_no_response_times :
  fst (get_zones_with_prefix (Demo.env Runs.unrelated) (Demo.client 2)
         (Demo.start Runs.unrelated)) = Ok [] /\
  exists m,
    fst (delete_zones_with_prefix (Demo.env Runs.unrelated) (Demo.client 2) true
           (Demo.start Runs.unrelated)) = Ok m /\
    total_zones m = 0 /\
    response_times m = None /\ response_times m <> Some zero_times.
Proof.
  split; [vm_compute; reflexivity|].
  exists nothing_deleted. split; [vm_compute; reflexivity|].
  repeat split. discriminate.
Qed.

(** The listing has one zone, without the prefix. *)
Lemma delete_nothing_is_noop_witness :
  get_zones_with_prefix (Demo.env Runs.unrelated) (Demo.client 2)
    (Demo.start Runs.unrelated)
  = (Ok [], snd (get_zones_with_prefix (Demo.env Runs.unrelated) (Demo.client 2)
                   (Demo.start Runs.unrelated))) /\
  exists m s',
    delete_zones_with_prefix (Demo.env Runs.unrelated) (Demo.client 2) true
                             (Demo.start Runs.unrelated) = (Ok m, s') /\
    total_zones m = 0 /\ successful m = 0 /\ failed m = 0 /\
    requests_of (events s')
    = requests_of (events (Demo.start Runs.unrelated))
      ++ [list_request (Demo.client 2)] /\
    delete_calls (events s') = delete_calls (events (Demo.start Runs.unrelated)).
Proof.
  assert (H : get_zones_with_prefix (Demo.env Runs.unrelated) (Demo.client 2)
                (Demo.start Runs.unrelated)
              = (Ok [], snd (get_zones_with_prefix (Demo.env Runs.unrelated)
                               (Demo.client 2) (Demo.start Runs.unrelated))))
    by (vm_compute; reflexivity).
  split; [exact H|].
  exact (delete_nothing_is_noop (Demo.env Runs.unrelated) (Demo.client 2) true
           (Demo.start Runs.unrelated) _ H).
Defined.

(** The listing request gets no response. *)
Lemma failed_listing_deletes_nothing_witness :
  listing_response (Demo.env Runs.silent) (Demo.client 2) (Demo.start Runs.silent)
  = None /\
  (exists m s3,
     delete_zones_with_prefix (Demo.env Runs.silent) (Demo.client 2) false
                              (Demo.start Runs.silent) = (Ok m, s3) /\
     total_zones m = 0 /\ successful m = 0 /\ failed m = 0 /\
     delete_calls (events s3) = delete_calls (events (Demo.start Runs.silent))).
Proof.
  assert (H : listing_response (Demo.env Runs.silent) (Demo.client 2)
                (Demo.start Runs.silent) = None) by reflexivity.
  split; [exact H|].
  exact (proj2 (proj2 (failed_listing_deletes_nothing (Demo.env Runs.silent)
                         (Demo.client 2) false (Demo.start Runs.silent)
                         (or_introl H)))).
Defined.

(** C6, as it is stated, fails: a generated name ends in [.com], so it is
    not the prefix followed by eight characters and nothing else. *)
Lemma generated_name_has_tld :
  exists name,
    fst (zone_names (Demo.env Runs.silent) (Demo.client 2) 1
           (Demo.start Runs.silent)) = Ok [name] /\
    name = "loadtest-bmrwwhsi.com"%string /\
    ~ (exists suffix,
         name = ("loadtest-" ++ suffix)%string /\ suffix_of_length 8 suffix).
Proof.
  exists "loadtest-bmrwwhsi.com"%string.
  split; [vm_compute; reflexivity|]. split; [reflexivity|].
  intros (suffix & Heq & Hlen & _). simpl in Heq.
  injection Heq as <-. discriminate Hlen.
Qed.

(** In the concrete environment the outcome of a call is a function of the
    name. *)
Lemma modes_agree_witness :
  (forall name s,
     fst (create_zone (Demo.env Runs.listed) (Demo.client 2) name s)
     = Ok (Demo.create_outcome 2 name)) /\
  (forall name s,
     fst (delete_zone (Demo.env Runs.listed) (Demo.client 2) name s)
     = Ok (Demo.delete_outcome 2 name)) /\
  (exists m1 s1 m2 s2,
     create_zones (Demo.env Runs.listed) (Demo.client 2) 3 true
                  (Demo.start Runs.listed) = (Ok m1, s1) /\
     create_zones (Demo.env Runs.listed) (Demo.client 2) 3 false
                  (Demo.start Runs.listed) = (Ok m2, s2) /\
     agree m1 m2) /\
  same_result
    (fst (delete_zones_with_prefix (Demo.env Runs.listed) (Demo.client 2) true
            (Demo.start Runs.listed)))
    (fst (delete_zones_with_prefix (Demo.env Runs.listed) (Demo.client 2) false
            (Demo.start Runs.listed))).
Proof.
  split; [exact (DemoFacts.create_outcome Runs.listed 2)|].
  split; [exact (DemoFacts.delete_outcome Runs.listed 2)|].
  exact (modes_agree (Demo.env Runs.listed) (Demo.client 2)
           (Demo.create_outcome 2) (Demo.delete_outcome 2) 3
           (Demo.start Runs.listed)
           (DemoFacts.create_outcome Runs.listed 2)
           (DemoFacts.delete_outcome Runs.listed 2)).
Defined.


(** Both flags on the command line. *)
Lemma both_flags_exit_witness :
  arg_create_only (Demo.args true true) = true /\
  arg_delete_only (Demo.args true true) = true /\
  exists s',
    main (Demo.env Runs.listed) (Demo.args true true) (Demo.start Runs.listed)
    = (Raise (SystemExit 1), s') /\
    exit_status (fst (main (Demo.env Runs.listed) (Demo.args true true)
                        (Demo.start Runs.listed))) = 1 /\
    events s' = events (Demo.start Runs.listed) ++ [EvPrint LBothFlagsError] /\
    world s' = world (Demo.start Runs.listed).
Proof.
  split; [reflexivity|]. split; [reflexivity|].
  exact (both_flags_exit (Demo.env Runs.listed) (Demo.args true true)
           (Demo.start Runs.listed) eq_refl eq_refl).
Defined.

(** Four durations, not in order. *)
Lemma median_of_even_length_witness :
  [0.4; 0.1; 0.3; 0.2]%Q <> [] /\
  Nat.even (List.length [0.4; 0.1; 0.3; 0.2]%Q) = true /\
  Stats.sorted Qle_bool [0.4; 0.1; 0.3; 0.2]%Q = [0.1; 0.2; 0.3; 0.4]%Q /\
  exists q, Stats.median [0.4; 0.1; 0.3; 0.2]%Q = Ok q /\ (q == 0.25)%Q.
Proof.
  assert (Hne : [0.4; 0.1; 0.3; 0.2]%Q <> []) by discriminate.
  destruct (median_of_even_length (Demo.env Runs.silent) [0.4; 0.1; 0.3; 0.2]%Q
              "create" 4 3 1 10%Q (Demo.start Runs.silent) Hne eq_refl)
    as [(_ & _ & Hmed & _) _].
  split; [exact Hne|]. split; [reflexivity|]. split; [reflexivity|].
  eexists. split; [exact Hmed|]. reflexivity.
Defined.

(** * Further properties of the script *)

(** ** Strings *)

Module PyFacts.

Lemma endswith_char_step c d e s :
  Py.endswith (String d (String e s)) (String c EmptyString)
  = Py.endswith (String e s) (String c EmptyString).
Proof.
  unfold Py.endswith. simpl String.length.
  change (1 <=? S (S (String.length s)))%nat with true.
  change (1 <=? S (String.length s))%nat with true.
  replace (S (S (String.length s)) - 1)%nat with (S (String.length s)) by lia.
  replace (S (String.length s) - 1)%nat with (String.length s) by lia.
  reflexivity.
Qed.

Lemma endswith_append_char c s :
  Py.endswith (s ++ String c EmptyString) (String c EmptyString) = true.
Proof.
  induction s as [|d s IH].
  - unfold Py.endswith. simpl. now rewrite Ascii.eqb_refl.
  - simpl. destruct s as [|e s].
    + unfold Py.endswith. simpl. now rewrite Ascii.eqb_refl.
    + simpl in *. now rewrite endswith_char_step.
Qed.

Lemma endswith_single c d :
  Py.endswith (String d EmptyString) (String c EmptyString) = Ascii.eqb d c.
Proof.
  unfold Py.endswith. simpl. now destruct (Ascii.eqb d c).
Qed.

(** [rstrip] leaves no final [c], and takes away only [c]s. *)
Lemma rstrip_no_final c s :
  Py.endswith (Py.rstrip c s) (String c EmptyString) = false.
Proof.
  induction s as [|d s IH]; [reflexivity|]. simpl.
  destruct (Py.rstrip c s) as [|e r] eqn:Hr.
  - destruct (Ascii.eqb d c) eqn:Hd; [reflexivity|].
    now rewrite endswith_single.
  - now rewrite endswith_char_step.
Qed.

Lemma rstrip_decompose c s :
  exists t, s = (Py.rstrip c s ++ t)%string /\
            forallb (Ascii.eqb c) (list_ascii_of_string t) = true.
Proof.
  induction s as [|d s (t & Hs & Ht)]; simpl.
  - exists EmptyString. auto.
  - destruct (Py.rstrip c s) as [|e r] eqn:Hr.
    + destruct (Ascii.eqb d c) eqn:Hd.
      * apply Ascii.eqb_eq in Hd. subst d.
        exists (String c t). simpl in *. rewrite Ascii.eqb_refl, Ht.
        split; [now rewrite Hs at 1|reflexivity].
      * exists t. simpl in *. split; [now rewrite Hs at 1|exact Ht].
    + exists t. simpl in *. split; [now rewrite Hs at 1|exact Ht].
Qed.

(** [startswith] holds of the strings that extend the prefix. *)
Lemma startswith_iff s p :
  Py.startswith s p = true <-> exists rest, s = (p ++ rest)%string.
Proof.
  revert s. induction p as [|c p IH]; intros s; simpl.
  - split; [intros _; exists s; reflexivity | intros _; destruct s; reflexivity].
  - destruct s as [|d s]; simpl.
    + split; [discriminate|]. intros [rest H]. discriminate.
    + rewrite andb_true_iff, Ascii.eqb_eq, IH. split.
      * intros [-> [rest ->]]. eauto.
      * intros [rest [= -> ->]]. eauto.
Qed.

End PyFacts.

(** ** Requests and single calls *)

Section SingleCalls.

Variable E : Env.
Variable self : Client.

(** X1. A method other than GET, POST, PUT and DELETE makes
    [_make_request] raise [ValueError]; the clock has been read, but nothing
    was sent and nothing was printed. *)
Theorem make_request_unsupported_method method endpoint data (s : State E) :
  known_method method = false ->
  exists msg s',
    _make_request E self method endpoint data s = (Raise (ValueError msg), s') /\
    events s' = events s /\
    world s' = snd (clock E (world s)).
Proof.
  intros Hm. unfold _make_request, bind, time_time, with_world. rewrite Hm.
  destruct (clock E (world s)) as [t0 w1]. cbn [fst snd].
  eexists _, _. split; [reflexivity|]. split; reflexivity.
Qed.

Lemma make_request_result method endpoint data (s : State E) :
  known_method method = true ->
  let req := built_request self method endpoint data in
  exists s',
    _make_request E self method endpoint data s
    = (Ok (request_response E s req, request_duration E s req), s') /\
    events s'
    = events s ++ EvHttp req ::
        match request_response E s req with
        | Some _ => []
        | None => [EvPrint LRequestError]
        end.
Proof.
  intros Hm req. unfold request_response, request_duration.
  unfold _make_request, bind, time_time, with_world, session_send.
  fold (endpoint_url self endpoint). rewrite Hm.
  fold (built_request self method endpoint data). fold req.
  destruct (clock E (world s)) as [t0 w1]. cbn [world events snd fst].
  destruct (http E w1 req) as [[r|] w2]; cbn [world events snd fst].
  - destruct (clock E w2) as [t1 w3]. eexists. split; reflexivity.
  - unfold print, emit. cbn [world events].
    destruct (clock E w2) as [t1 w3]. eexists. split; [reflexivity|].
    cbn [events]. now rewrite <- app_assoc.
Qed.

(** X2. With one of the four methods [_make_request] never raises: it
    sends one request, which carries the body only for POST and PUT, and
    returns what the session returned, [None] when the transport failed,
    with the time between the two readings of the clock around the call. A
    transport failure is printed, a response is not. *)
Theorem make_request_returns method endpoint data (s : State E) :
  known_method method = true ->
  let req := built_request self method endpoint data in
  exists s',
    _make_request E self method endpoint data s
    = (Ok (request_response E s req, request_duration E s req), s') /\
    events s'
    = events s ++ EvHttp req ::
        match request_response E s req with
        | Some _ => []
        | None => [EvPrint LRequestError]
        end.
Proof. exact (make_request_result method endpoint data s). Qed.

Lemma responded_with_iff resp codes :
  Forall (fun c => c < 400) codes ->
  responded_with resp codes = true
  <-> exists r, resp = Some r /\ In (status_code r) codes.
Proof.
  intros Hcodes. destruct resp as [r|]; simpl.
  - rewrite andb_true_iff, existsb_exists. split.
    + intros (_ & c & Hin & Heq). apply Z.eqb_eq in Heq. subst c. eauto.
    + intros (r' & [= <-] & Hin). split.
      * unfold truthy. rewrite Forall_forall in Hcodes.
        specialize (Hcodes _ Hin). simpl in Hcodes.
        destruct (Z.leb_spec 400 (status_code r)); [lia|reflexivity].
      * exists (status_code r). split; [exact Hin | apply Z.eqb_refl].
  - split; [discriminate|]. intros (r & H & _). discriminate.
Qed.

Lemma call_run (codes : list Z) (method endpoint : string) data
      (failure : option Response -> Line) (s : State E) :
  known_method method = true ->
  let req := built_request self method endpoint data in
  let resp := request_response E s req in
  exists s',
    ('(response, response_time) <- _make_request E self method endpoint data ;;
     if responded_with response codes then ret (true, response_time)
     else print (failure response) ;;; ret (false, response_time))%monad s
    = (Ok (responded_with resp codes, request_duration E s req), s') /\
    events s'
    = events s ++ EvHttp req :: call_lines resp (responded_with resp codes)
                                           (failure resp).
Proof.
  intros Hm req resp.
  destruct (make_request_result method endpoint data s Hm) as (s1 & Hrun & Hev).
  fold req in Hrun, Hev. fold resp in Hrun, Hev.
  rewrite (bind_ok _ _ _ _ _ _ Hrun). unfold call_lines.
  destruct (responded_with resp codes).
  - eexists. split; [reflexivity|]. rewrite Hev, app_nil_r. reflexivity.
  - unfold bind, ret. rewrite print_run. eexists. split; [reflexivity|].
    cbn [events]. rewrite Hev, <- app_assoc. reflexivity.
Qed.

Lemma create_zone_result (zone_name : string) (s : State E) :
  let req := create_request self zone_name in
  let resp := request_response E s req in
  exists ok s',
    create_zone E self zone_name s = (Ok (ok, request_duration E s req), s') /\
    (ok = true <->
     exists r, resp = Some r /\ (status_code r = 201 \/ status_code r = 200)) /\
    events s'
    = events s ++ EvHttp req ::
        call_lines resp ok
          (LCreateFailed (dotted zone_name) (status_or_none resp)
                         (text_or_unknown resp)).
Proof.
  intros req resp.
  destruct (call_run [201; 200] "POST" "zones" (Some (zone_data (dotted zone_name)))
              (fun response => LCreateFailed (dotted zone_name)
                                 (status_or_none response) (text_or_unknown response))
              s eq_refl) as (s' & Hrun & Hev).
  exists (responded_with resp [201; 200]), s'.
  split; [exact Hrun|]. split; [|exact Hev].
  rewrite responded_with_iff by (repeat constructor).
  simpl. split; intros (r & Hr & H); exists r; (split; [exact Hr|lia]).
Qed.

(** X3. [create_zone] never raises. It sends one POST for the name with
    its final dot, returns the measured duration, and reports success
    exactly when a response came back with status 200 or 201; when it does
    not, it prints one failure line for the zone. *)
Theorem create_zone_run (zone_name : string) (s : State E) :
  let req := create_request self zone_name in
  let resp := request_response E s req in
  exists ok s',
    create_zone E self zone_name s = (Ok (ok, request_duration E s req), s') /\
    (ok = true <->
     exists r, resp = Some r /\ (status_code r = 201 \/ status_code r = 200)) /\
    events s'
    = events s ++ EvHttp req ::
        call_lines resp ok
          (LCreateFailed (dotted zone_name) (status_or_none resp)
                         (text_or_unknown resp)).
Proof. exact (create_zone_result zone_name s). Qed.

Lemma delete_zone_result (zone_name : string) (s : State E) :
  let req := delete_request self zone_name in
  let resp := request_response E s req in
  exists ok s',
    delete_zone E self zone_name s = (Ok (ok, request_duration E s req), s') /\
    (ok = true <-> exists r, resp = Some r /\ status_code r = 204) /\
    events s'
    = events s ++ EvHttp req ::
        call_lines resp ok
          (LDeleteFailed (dotted zone_name) (status_or_none resp)
                         (text_or_unknown resp)).
Proof.
  intros req resp.
  destruct (call_run [204] "DELETE" ("zones/" ++ dotted zone_name)%string None
              (fun response => LDeleteFailed (dotted zone_name)
                                 (status_or_none response) (text_or_unknown response))
              s eq_refl) as (s' & Hrun & Hev).
  exists (responded_with resp [204]), s'.
  split; [exact Hrun|]. split; [|exact Hev].
  rewrite responded_with_iff by (repeat constructor).
  simpl. split; intros (r & Hr & H); exists r; (split; [exact Hr|lia]).
Qed.

(** X4. [delete_zone] never raises. It sends one DELETE to the URL of the
    name with its final dot, returns the measured duration, and reports
    success exactly when a response came back with status 204; when it does
    not, it prints one failure line for the zone. *)
Theorem delete_zone_run (zone_name : string) (s : State E) :
  let req := delete_request self zone_name in
  let resp := request_response E s req in
  exists ok s',
    delete_zone E self zone_name s = (Ok (ok, request_duration E s req), s') /\
    (ok = true <-> exists r, resp = Some r /\ status_code r = 204) /\
    events s'
    = events s ++ EvHttp req ::
        call_lines resp ok
          (LDeleteFailed (dotted zone_name) (status_or_none resp)
                         (text_or_unknown resp)).
Proof. exact (delete_zone_result zone_name s). Qed.

End SingleCalls.

Section Names.

Variable E : Env.
Variable self : Client.

Lemma dotted_ends_with_dot zone_name : Py.endswith (dotted zone_name) "." = true.
Proof.
  unfold dotted. destruct (Py.endswith zone_name ".") eqn:H; simpl; auto.
  apply PyFacts.endswith_append_char.
Qed.

Lemma dotted_idempotent zone_name : dotted (dotted zone_name) = dotted zone_name.
Proof.
  unfold dotted at 1. now rewrite dotted_ends_with_dot.
Qed.

(** X5. The name that is sent always ends with a dot, and a name that
    already has its final dot is sent as it is: [create_zone] and
    [delete_zone] do the same on a name and on that name with its dot. *)
Theorem final_dot_is_optional (zone_name : string) :
  Py.endswith (dotted zone_name) "." = true /\
  (Py.endswith zone_name "." = true -> dotted zone_name = zone_name) /\
  (Py.endswith zone_name "." = false ->
   dotted zone_name = (zone_name ++ ".")%string) /\
  create_request self (dotted zone_name) = create_request self zone_name /\
  delete_request self (dotted zone_name) = delete_request self zone_name /\
  create_zone E self (dotted zone_name) = create_zone E self zone_name /\
  delete_zone E self (dotted zone_name) = delete_zone E self zone_name.
Proof.
  split; [apply dotted_ends_with_dot|].
  split; [intros H; unfold dotted; now rewrite H|].
  split; [intros H; unfold dotted; now rewrite H|].
  unfold create_request, delete_request, create_zone, delete_zone.
  rewrite dotted_idempotent. repeat split.
Qed.

Lemma error_status_falsy r : error_status r -> truthy r = false.
Proof.
  unfold error_status, truthy. intros [Hlo Hhi].
  apply Z.leb_le in Hlo. apply Z.ltb_lt in Hhi. now rewrite Hlo, Hhi.
Qed.

(** X6. A response with a status from 400 to 599 counts as no response:
    the call fails, and the line it prints carries neither the status nor
    the text of the response, for [create_zone], [delete_zone] and
    [list_zones] alike. *)
Theorem error_status_is_not_reported (r : Response) (zone_name : string)
    (s : State E) :
  error_status r ->
  (request_response E s (create_request self zone_name) = Some r ->
   exists d s',
     create_zone E self zone_name s = (Ok (false, d), s') /\
     events s'
     = events s ++ [EvHttp (create_request self zone_name);
                    EvPrint (LCreateFailed (dotted zone_name) None "Unknown error")])
  /\
  (request_response E s (delete_request self zone_name) = Some r ->
   exists d s',
     delete_zone E self zone_name s = (Ok (false, d), s') /\
     events s'
     = events s ++ [EvHttp (delete_request self zone_name);
                    EvPrint (LDeleteFailed (dotted zone_name) None "Unknown error")])
  /\
  (listing_response E self s = Some r ->
   exists d s',
     list_zones E self s = (Ok ([], d), s') /\
     events s' = events s ++ [EvHttp (list_request self); EvPrint (LListFailed None)]).
Proof.
  intros Herr. pose proof (error_status_falsy r Herr) as Hfalsy.
  assert (Hstatus : forall codes, Forall (fun c => c < 400) codes ->
                                  ~ In (status_code r) codes).
  { intros codes Hcodes Hin. rewrite Forall_forall in Hcodes.
    specialize (Hcodes _ Hin). unfold error_status in Herr. simpl in Hcodes. lia. }
  split; [|split].
  - intros Hresp.
    destruct (create_zone_result E self zone_name s) as (ok & s' & Hrun & Hiff & Hev).
    rewrite Hresp in Hiff, Hev. destruct ok.
    + exfalso. destruct (proj1 Hiff eq_refl) as (r' & [= <-] & H).
      apply (Hstatus [201; 200]); [repeat constructor|simpl; lia].
    + eexists _, s'. split; [exact Hrun|]. rewrite Hev.
      unfold call_lines, status_or_none, text_or_unknown. now rewrite Hfalsy.
  - intros Hresp.
    destruct (delete_zone_result E self zone_name s) as (ok & s' & Hrun & Hiff & Hev).
    rewrite Hresp in Hiff, Hev. destruct ok.
    + exfalso. destruct (proj1 Hiff eq_refl) as (r' & [= <-] & H).
      apply (Hstatus [204]); [repeat constructor|simpl; lia].
    + eexists _, s'. split; [exact Hrun|]. rewrite Hev.
      unfold call_lines, status_or_none, text_or_unknown. now rewrite Hfalsy.
  - intros Hresp. unfold listing_response in Hresp.
    destruct (make_request_result E self "GET" "zones" None s eq_refl)
      as (s1 & Hrun & Hev).
    change (built_request self "GET" "zones" None) with (list_request self)
      in Hrun, Hev.
    rewrite Hresp in Hrun, Hev. unfold list_zones.
    assert (Hno : responded_with (Some r) [200] = false)
      by (unfold responded_with; now rewrite Hfalsy).
    rewrite (bind_ok _ _ _ _ _ _ Hrun), Hno.
    unfold bind, ret. rewrite print_run.
    eexists _, _. split; [reflexivity|]. cbn [events]. rewrite Hev.
    rewrite <- app_assoc. unfold status_or_none. now rewrite Hfalsy.
Qed.

End Names.

(** ** The listing *)

Section Listing.

Variable E : Env.
Variable self : Client.

Lemma getitem_cases (zone : Zone) key :
  (exists v, getitem zone key = Ok v) \/ getitem zone key = Raise (KeyError key).
Proof.
  induction zone as [|[k v] zone IH]; simpl; auto.
  destruct (String.eqb k key); eauto.
Qed.

Lemma names_with_prefix_filter prefix zones names :
  Forall2 (fun zone name => getitem zone "name" = Ok name) zones names ->
  names_with_prefix prefix zones
  = Ok (filter (fun name => Py.startswith name prefix) names).
Proof.
  induction 1 as [|zone name zones names Hz _ IH]; [reflexivity|].
  cbn [names_with_prefix filter]. rewrite Hz, IH. reflexivity.
Qed.

Lemma names_with_prefix_nameless prefix zones :
  Exists (fun zone => getitem zone "name" = Raise (KeyError "name")) zones ->
  names_with_prefix prefix zones = Raise (KeyError "name").
Proof.
  induction zones as [|zone zones IH]; intros Hex; [inversion Hex|].
  cbn [names_with_prefix].
  destruct (getitem_cases zone "name") as [[v Hv]|Hraise].
  - rewrite Hv. inversion Hex as [? ? H|? ? H]; subst; [congruence|].
    now rewrite (IH H).
  - now rewrite Hraise.
Qed.

Lemma names_with_prefix_all prefix zones names :
  names_with_prefix prefix zones = Ok names ->
  Forall (fun name => Py.startswith name prefix = true) names.
Proof.
  revert names. induction zones as [|zone zones IH]; intros names; simpl.
  - intros [= <-]. constructor.
  - destruct (getitem zone "name") as [name|e]; [|discriminate].
    destruct (names_with_prefix prefix zones) as [rest|e]; [|discriminate].
    intros [= <-]. specialize (IH rest eq_refl).
    destruct (Py.startswith name prefix) eqn:Hp; auto.
Qed.

(** A listing answered with status 200: the body is returned if it
    parses. *)
Lemma list_zones_answered r (s : State E) :
  listing_response E self s = Some r -> status_code r = 200 ->
  exists d s1,
    list_zones E self s
    = (match resp_json r with
       | Some zones => Ok (zones, d)
       | None => Raise JSONDecodeError
       end, s1) /\
    events s1 = events s ++ [EvHttp (list_request self)].
Proof.
  intros Hresp Hst. unfold listing_response in Hresp.
  destruct (make_request_result E self "GET" "zones" None s eq_refl)
    as (s1 & Hrun & Hev).
  change (built_request self "GET" "zones" None) with (list_request self)
    in Hrun, Hev.
  rewrite Hresp in Hrun, Hev. unfold list_zones.
  rewrite (bind_ok _ _ _ _ _ _ Hrun).
  assert (Hyes : responded_with (Some r) [200] = true).
  { apply responded_with_iff; [repeat constructor|].
    exists r. split; auto. simpl. auto. }
  rewrite Hyes. exists (request_duration E s (list_request self)), s1.
  split; [|exact Hev]. destruct (resp_json r); reflexivity.
Qed.

(** X7. When the listing is answered with status 200 and every listed
    zone has a name, [get_zones_with_prefix] returns the names that start
    with the prefix, all of them and in the order of the listing, after
    sending the one listing request. *)
Theorem listed_names_are_filtered (r : Response) (zones : list Zone)
    (names : list string) (s : State E) :
  listing_response E self s = Some r -> status_code r = 200 ->
  resp_json r = Some zones ->
  Forall2 (fun zone name => getitem zone "name" = Ok name) zones names ->
  exists s',
    get_zones_with_prefix E self s
    = (Ok (filter (fun name => Py.startswith name (zone_prefix self)) names), s') /\
    Forall (fun name => exists rest, name = (zone_prefix self ++ rest)%string)
           (filter (fun name => Py.startswith name (zone_prefix self)) names) /\
    events s' = events s ++ [EvHttp (list_request self)].
Proof.
  intros Hresp Hst Hjson Hnames.
  destruct (list_zones_answered r s Hresp Hst) as (d & s1 & Hrun & Hev).
  rewrite Hjson in Hrun. exists s1. split; [|split; [|exact Hev]].
  - unfold get_zones_with_prefix. rewrite (bind_ok _ _ _ _ _ _ Hrun).
    unfold lift. now rewrite (names_with_prefix_filter _ _ _ Hnames).
  - apply Forall_forall. intros name Hin. apply filter_In in Hin.
    apply PyFacts.startswith_iff. tauto.
Qed.

(** X8. A listing answered with status 200 whose body does not parse, or
    in which some zone object has no name, makes the delete batch raise
    ([JSONDecodeError], [KeyError]) instead of returning a dictionary: the
    listing request is all that was sent, and nothing is deleted, not even
    the well-formed zones with the prefix. *)
Theorem malformed_listing_aborts_delete (r : Response) (parallel : bool)
    (s : State E) :
  listing_response E self s = Some r -> status_code r = 200 ->
  (resp_json r = None ->
   exists s',
     delete_zones_with_prefix E self parallel s = (Raise JSONDecodeError, s') /\
     events s' = events s ++ [EvHttp (list_request self)])
  /\
  (forall zones,
     resp_json r = Some zones ->
     Exists (fun zone => getitem zone "name" = Raise (KeyError "name")) zones ->
     exists s',
       delete_zones_with_prefix E self parallel s = (Raise (KeyError "name"), s') /\
       events s' = events s ++ [EvHttp (list_request self)]).
Proof.
  intros Hresp Hst.
  destruct (list_zones_answered r s Hresp Hst) as (d & s1 & Hrun & Hev).
  split.
  - intros Hjson. rewrite Hjson in Hrun. exists s1. split; [|exact Hev].
    unfold delete_zones_with_prefix, get_zones_with_prefix.
    now rewrite bind_assoc, (bind_raise _ _ _ _ _ _ Hrun).
  - intros zones Hjson Hex. rewrite Hjson in Hrun. exists s1. split; [|exact Hev].
    unfold delete_zones_with_prefix, get_zones_with_prefix.
    rewrite bind_assoc, (bind_ok _ _ _ _ _ _ Hrun).
    unfold bind, lift. now rewrite (names_with_prefix_nameless _ _ Hex).
Qed.

Lemma get_zones_prefixed (s : State E) zs s1 :
  get_zones_with_prefix E self s = (Ok zs, s1) ->
  Forall (fun name => Py.startswith name (zone_prefix self) = true) zs.
Proof.
  unfold get_zones_with_prefix, bind.
  destruct (list_zones E self s) as [[[zones d]|e] s2]; [|discriminate].
  unfold lift. intros [= H _]. eapply names_with_prefix_all; eauto.
Qed.

Lemma delete_batch_requests (parallel : bool) (s s1 : State E)
    (zs : list string) :
  get_zones_with_prefix E self s = (Ok zs, s1) ->
  exists m s',
    delete_zones_with_prefix E self parallel s = (Ok m, s') /\
    total_zones m = Py.len zs /\
    Forall (fun name => exists rest, name = (zone_prefix self ++ rest)%string) zs /\
    Permutation (requests_of (events s'))
                (requests_of (events s)
                 ++ list_request self :: map (delete_request self) zs).
Proof.
  intros Hz.
  assert (Hpre : Forall (fun name => exists rest,
                             name = (zone_prefix self ++ rest)%string) zs).
  { eapply Forall_impl; [|exact (get_zones_prefixed s zs s1 Hz)].
    intros name. apply PyFacts.startswith_iff. }
  pose proof (get_zones_requests E self s _ _ Hz) as Hlist.
  destruct zs as [|z zs].
  - destruct (delete_zones_nothing_calls E self parallel s s1 Hz)
      as (s' & Hd & Hreq & _).
    exists nothing_deleted, s'. repeat split; auto.
    rewrite Hreq. reflexivity.
  - destruct (delete_zones_batch E self s (z :: zs) s1 Hz)
      as (t0 & s0 & Hreq0 & Heq); [discriminate|].
    destruct (timed_batch_spec E self (delete_zone E self) (fun _ _ => True)
                (delete_request self) (delete_call_spec E self)
                "delete" (Py.len (z :: zs)) parallel (z :: zs) t0 s0)
      as (outs & u1 & m & s' & _ & _ & Hm & _ & Ht & _ & _ & _ & _ & _ & Hperm).
    exists m, s'. rewrite Heq. repeat split; auto.
    rewrite Hperm, Hreq0, Hlist, <- app_assoc. reflexivity.
Qed.

(** X9. A delete batch sends, after the listing request, one DELETE per
    listed name with the prefix and no other request: a zone whose name
    does not start with the prefix is never the target of a DELETE. *)
Theorem delete_targets_prefixed_names (parallel : bool) (s s1 : State E)
    (zs : list string) :
  get_zones_with_prefix E self s = (Ok zs, s1) ->
  exists m s',
    delete_zones_with_prefix E self parallel s = (Ok m, s') /\
    total_zones m = Py.len zs /\
    Forall (fun name => exists rest, name = (zone_prefix self ++ rest)%string) zs /\
    Permutation (requests_of (events s'))
                (requests_of (events s)
                 ++ list_request self :: map (delete_request self) zs).
Proof. exact (delete_batch_requests parallel s s1 zs). Qed.

(** X10. [generate_random_suffix] returns, for every requested length, a
    string of that many characters, each a lowercase letter or a digit; it
    prints nothing and sends nothing. *)
Theorem random_suffix_shape (length : nat) (s : State E) :
  exists suffix s',
    generate_random_suffix E self length s = (Ok suffix, s') /\
    suffix_of_length length suffix /\ events s' = events s.
Proof.
  destruct (choices_spec E length s) as (cs & s' & Hc & Hlen & Hall & Hev).
  unfold generate_random_suffix. rewrite (bind_ok _ _ _ _ _ _ Hc).
  exists (Py.join cs), s'. split; [reflexivity|]. split; auto.
  unfold suffix_of_length, Py.join.
  rewrite list_ascii_of_string_of_list_ascii. split; auto.
  rewrite <- Hlen. clear. induction cs; simpl; auto.
Qed.

End Listing.

(** ** The order of the statistics *)

Module StatsOrder.
Import Stats.

Lemma min_fold_in l x :
  let m := fold_left (fun m z => if Qle_bool m z then m else z) l x in
  m = x \/ In m l.
Proof.
  revert x. induction l as [|z l IH]; intros x; simpl; auto.
  destruct (Qle_bool x z); destruct (IH x) as [H|H], (IH z) as [H'|H']; auto.
Qed.

Lemma max_fold_in l x :
  let m := fold_left (fun m z => if Qle_bool z m then m else z) l x in
  m = x \/ In m l.
Proof.
  revert x. induction l as [|z l IH]; intros x; simpl; auto.
  destruct (Qle_bool z x); destruct (IH x) as [H|H], (IH z) as [H'|H']; auto.
Qed.

(** The minimum and the maximum are values of the list. *)
Lemma min_in l m : min l = Ok m -> In m l.
Proof.
  destruct l as [|x l]; [discriminate|]. intros [= <-].
  destruct (min_fold_in l x); simpl; auto.
Qed.

Lemma max_in l m : max l = Ok m -> In m l.
Proof.
  destruct l as [|x l]; [discriminate|]. intros [= <-].
  destruct (max_fold_in l x); simpl; auto.
Qed.

Lemma nth_or_head_in (d : Q) rest i : In (nth i (d :: rest) d) (d :: rest).
Proof.
  destruct (Nat.lt_ge_cases i (List.length (d :: rest))) as [Hlt|Hge].
  - now apply nth_In.
  - rewrite nth_overflow by exact Hge. now left.
Qed.

Lemma median_between l m lo hi :
  median l = Ok m ->
  (forall x, In x l -> lo <= x <= hi)%Q -> (lo <= m <= hi)%Q.
Proof.
  unfold median, median_by. intros Hm Hall.
  pose proof (StatsFacts.sorted_permutation Qle_bool l) as Hperm.
  destruct (sorted Qle_bool l) as [|d rest]; [discriminate|].
  assert (Hin : forall i, (lo <= nth i (d :: rest) d <= hi)%Q).
  { intros i. apply Hall. eapply Permutation_in; [exact Hperm|].
    apply nth_or_head_in. }
  set (n := List.length (d :: rest)) in *.
  destruct (Nat.eqb _ 1).
  - assert (Hm' : m = nth (n / 2) (d :: rest) d) by congruence.
    rewrite Hm'. apply Hin.
  - assert (Hm' : m = Qhalfsum (nth (n / 2 - 1) (d :: rest) d)
                               (nth (n / 2) (d :: rest) d)) by congruence.
    rewrite Hm'. unfold Qhalfsum.
    destruct (Hin (n / 2 - 1)%nat) as [Ha1 Ha2].
    destruct (Hin (n / 2)%nat) as [Hb1 Hb2].
    split.
    + apply Qle_shift_div_l; [reflexivity|]. lra.
    + apply Qle_shift_div_r; [reflexivity|]. lra.
Qed.

Lemma sum_cons x l : (sum (x :: l) == x + sum l)%Q.
Proof.
  unfold sum at 1. simpl. rewrite StatsFacts.sum_from. ring.
Qed.

Lemma len_cons {X} (x : X) l :
  (inject_Z (Py.len (x :: l)) == inject_Z (Py.len l) + 1)%Q.
Proof.
  unfold Py.len. simpl List.length. rewrite Nat2Z.inj_succ. unfold Z.succ.
  rewrite inject_Z_plus. reflexivity.
Qed.

Lemma sum_between l lo hi :
  (forall x, In x l -> lo <= x <= hi)%Q ->
  (inject_Z (Py.len l) * lo <= sum l <= inject_Z (Py.len l) * hi)%Q.
Proof.
  induction l as [|x l IH]; intros Hall.
  - change (sum []) with 0%Q. change (inject_Z (Py.len (@nil Q))) with 0%Q.
    split; lra.
  - rewrite sum_cons, len_cons.
    destruct (Hall x (or_introl eq_refl)) as [Hlo Hhi].
    destruct IH as [IHlo IHhi]; [intros y Hy; apply Hall; now right|].
    set (n := inject_Z (Py.len l)) in *. split.
    + setoid_replace ((n + 1) * lo)%Q with (n * lo + lo)%Q by ring. lra.
    + setoid_replace ((n + 1) * hi)%Q with (n * hi + hi)%Q by ring. lra.
Qed.

Lemma mean_between l m lo hi :
  mean l = Ok m ->
  (forall x, In x l -> lo <= x <= hi)%Q -> (lo <= m <= hi)%Q.
Proof.
  destruct l as [|x l]; [discriminate|]. unfold mean. intros [= <-] Hall.
  destruct (sum_between (x :: l) lo hi Hall) as [Hlo Hhi].
  assert (Hpos : (0 < inject_Z (Py.len (x :: l)))%Q).
  { unfold Py.len. simpl List.length. unfold Qlt. simpl. lia. }
  split.
  - apply Qle_shift_div_l; [exact Hpos|]. lra.
  - apply Qle_shift_div_r; [exact Hpos|]. lra.
Qed.

(** The statistics of a non-empty list. *)
Lemma stats_ordered ds rt :
  stats_over ds rt ->
  In (rt_min rt) ds /\ In (rt_max rt) ds /\
  (rt_min rt <= rt_median rt <= rt_max rt)%Q /\
  (rt_min rt <= rt_avg rt <= rt_max rt)%Q.
Proof.
  intros (Hmin & Hmax & Hmean & Hmed).
  assert (Hall : (forall x, In x ds -> rt_min rt <= x <= rt_max rt)%Q).
  { intros x Hx. split.
    - eapply StatsFacts.min_le; eauto.
    - eapply StatsFacts.max_ge; eauto. }
  split; [now apply min_in|]. split; [now apply max_in|].
  split; [eapply median_between | eapply mean_between]; eauto.
Qed.

End StatsOrder.

(** ** More on the batches *)

Section MoreBatches.

Variable E : Env.
Variable self : Client.

Lemma batch_statistics_ordered (call : string -> M E (bool * Q)) req_of op count
      parallel names t0 (s : State E) :
  (forall x s, exists v s',
      call x s = (Ok v, s') /\ True /\
      requests_of (events s') = requests_of (events s) ++ [req_of x]) ->
  names <> [] ->
  exists m s' rt,
    timed_batch E self op count parallel call names t0 s = (Ok m, s') /\
    response_times m = Some rt /\
    (rt_min rt <= rt_median rt <= rt_max rt)%Q /\
    (rt_min rt <= rt_avg rt <= rt_max rt)%Q.
Proof.
  intros Hcall Hne.
  destruct (timed_batch_spec E self call (fun _ _ => True) req_of Hcall
              op count parallel names t0 s)
    as (outs & s1 & m & s' & _ & Hall & Hm & _ & _ & _ & _ & (rt & Hrt & _ & Hst) & _).
  assert (Hout : outs <> []).
  { intros ->. destruct names; [congruence | inversion Hall]. }
  destruct (StatsOrder.stats_ordered _ _ (Hst Hout)) as (_ & _ & Hmed & Havg).
  exists m, s', rt. auto.
Qed.

(** X11. In the dictionary of a batch of at least one name, the median
    and the mean of the response times lie between the minimum and the
    maximum. *)
Theorem statistics_are_ordered (count : Z) (parallel : bool) (s : State E) :
  0 < count ->
  (exists m s' rt,
     create_zones E self count parallel s = (Ok m, s') /\
     response_times m = Some rt /\
     (rt_min rt <= rt_median rt <= rt_max rt)%Q /\
     (rt_min rt <= rt_avg rt <= rt_max rt)%Q)
  /\
  (forall zs s1,
     get_zones_with_prefix E self s = (Ok zs, s1) -> zs <> [] ->
     exists m s' rt,
       delete_zones_with_prefix E self parallel s = (Ok m, s') /\
       response_times m = Some rt /\
       (rt_min rt <= rt_median rt <= rt_max rt)%Q /\
       (rt_min rt <= rt_avg rt <= rt_max rt)%Q).
Proof.
  intros Hcount. split.
  - destruct (create_zones_batch E self count s)
      as (names & t0 & s0 & Hlen & _ & Heq). rewrite Heq.
    apply (batch_statistics_ordered (create_zone E self) (create_request self)).
    + apply create_call_spec.
    + intros ->. simpl in Hlen. lia.
  - intros zs s1 Hz Hne.
    destruct (delete_zones_batch E self s zs s1 Hz Hne) as (t0 & s0 & _ & Heq).
    rewrite Heq.
    apply (batch_statistics_ordered (delete_zone E self) (delete_request self));
      [apply delete_call_spec | exact Hne].
Qed.

(** A batch of no name calls nothing, through the pool as well. *)
Lemma dispatch_nothing parallel (call : string -> M E (bool * Q)) (s : State E) :
  dispatch E self parallel call [] s = (Ok [], s).
Proof.
  unfold dispatch. destruct (parallel && (1 <? max_workers self))%bool; [|reflexivity].
  unfold executor_map. simpl List.length.
  destruct (2 * 0 + Z.to_nat (max_workers self))%nat; reflexivity.
Qed.

(** X12. A count that is zero or negative is not refused: [create_zones]
    sends nothing and returns a dictionary whose [total_zones] is that
    count, with no success, no failure, an average time of zero and response
    times that are all zero; all it prints is its first line. *)
Theorem nonpositive_count_creates_nothing (count : Z) (parallel : bool)
    (s : State E) :
  count <= 0 ->
  exists m s',
    create_zones E self count parallel s = (Ok m, s') /\
    total_zones m = count /\ successful m = 0 /\ failed m = 0 /\
    average_time_per_zone m = Some 0%Q /\
    response_times m = Some zero_times /\
    events s' = events s ++ [EvPrint (LCreating count (zone_prefix self))].
Proof.
  intros Hcount. unfold create_zones. unfold bind at 1. rewrite print_run.
  unfold bind at 1, time_time, with_world. cbn [world events].
  destruct (clock E (world s)) as [t0 w1].
  destruct (zone_names_spec E self count
              (mkState w1 (events s ++ [EvPrint (LCreating count (zone_prefix self))])))
    as (names & s0 & Hn & Hlen & _ & Hev).
  rewrite (bind_ok _ _ _ _ _ _ Hn).
  replace (Z.to_nat count) with 0%nat in Hlen by lia.
  destruct names; [|discriminate].
  destruct (timed_batch_spec E self (create_zone E self) (fun _ _ => True)
              (create_request self) (create_call_spec E self)
              "create" count parallel [] t0 s0)
    as (outs & s1 & m & s' & Hd & _ & Hm & _ & Ht & Hs & Hf
        & (rt & Hrt & Hzero & _) & Hav & Hev' & _).
  rewrite dispatch_nothing in Hd. injection Hd as <- <-.
  exists m, s'. split; [exact Hm|].
  rewrite Hrt, (Hzero eq_refl), Hav, Hev', Hev. cbn [events].
  repeat split; auto.
  unfold average_of. destruct (Z.ltb_spec 0 count); [lia|reflexivity].
Qed.


End MoreBatches.

(** ** The constructor and the report *)

Section Report.

Variable E : Env.
Variable self : Client.

(** X14. The constructor opens one session and sends nothing. The base
    URL it keeps is the given URL without its final slashes, so it never
    ends with a slash; the other attributes are kept as given. *)
Theorem init_strips_final_slashes (url key prefix sid : string) (tmo : Z)
    (verify : bool) (workers : Z) (s : State E) :
  exists c s',
    PDNSLoadTest_init E url key prefix sid tmo verify workers s = (Ok c, s') /\
    events s' = events s ++ [EvSession] /\ world s' = world s /\
    Py.endswith (api_url c) "/" = false /\
    (exists t, url = (api_url c ++ t)%string /\ slashes t) /\
    (api_key c, zone_prefix c, server_id c, timeout c, verify_ssl c, max_workers c)
    = (key, prefix, sid, tmo, verify, workers).
Proof.
  eexists _, _. split; [reflexivity|]. cbn [events world api_url].
  repeat split.
  - apply PyFacts.rstrip_no_final.
  - apply PyFacts.rstrip_decompose.
Qed.

Lemma requests_of_prints (evs : list Event) (lines : list Line) :
  requests_of (evs ++ map EvPrint lines) = requests_of evs.
Proof.
  rewrite requests_of_app.
  assert (H : requests_of (map EvPrint lines) = []).
  { induction lines; simpl; auto. }
  rewrite H. apply app_nil_r.
Qed.

Lemma print_metrics_result (m : Metrics) (s : State E) :
  exists r s',
    print_metrics E self m s = (r, s') /\
    requests_of (events s') = requests_of (events s) /\
    (r = Ok tt <-> total_zones m <= 0 \/ average_time_per_zone m <> None) /\
    (r <> Ok tt -> r = Raise (KeyError "average_time_per_zone")) /\
    (r = Ok tt ->
     exists lines,
       events s' = events s ++ map EvPrint lines ++ [EvPrint (LSuccessRate (success_rate m))]) /\
    (total_zones m <= 0 -> events s' = events s ++ summary_lines m 0).
Proof.
  unfold print_metrics, success_rate, summary_lines.
  destruct (Z.ltb_spec 0 (total_zones m)) as [Hpos|Hneg].
  - destruct (average_time_per_zone m) as [a|] eqn:Hav.
    + rewrite (truediv_count _ _ Hpos).
      destruct (response_times m) as [rt|];
        (eexists _, _; split; [reflexivity|]); cbn [events].
      * split.
        { rewrite <- !app_assoc. simpl app.
          apply (requests_of_prints (events s)
                   [LMetricsHeader (Py.capitalize (operation m));
                    LTotalZones (total_zones m); LSuccessful (successful m);
                    LFailed (failed m); LTotalTime (total_time_seconds m);
                    LAverageTime a; LResponseTimesHeader; LMin (rt_min rt);
                    LMax (rt_max rt); LAvg (rt_avg rt); LMedian (rt_median rt);
                    LSuccessRate _]). }
        split; [split; [right; discriminate|reflexivity]|].
        split; [congruence|]. split; [|lia]. intros _.
        exists [LMetricsHeader (Py.capitalize (operation m));
                LTotalZones (total_zones m); LSuccessful (successful m);
                LFailed (failed m); LTotalTime (total_time_seconds m);
                LAverageTime a; LResponseTimesHeader; LMin (rt_min rt);
                LMax (rt_max rt); LAvg (rt_avg rt); LMedian (rt_median rt)].
        rewrite <- !app_assoc. reflexivity.
      * split.
        { rewrite <- !app_assoc. simpl app.
          apply (requests_of_prints (events s)
                   [LMetricsHeader (Py.capitalize (operation m));
                    LTotalZones (total_zones m); LSuccessful (successful m);
                    LFailed (failed m); LTotalTime (total_time_seconds m);
                    LAverageTime a; LSuccessRate _]). }
        split; [split; [right; discriminate|reflexivity]|].
        split; [congruence|]. split; [|lia]. intros _.
        exists [LMetricsHeader (Py.capitalize (operation m));
                LTotalZones (total_zones m); LSuccessful (successful m);
                LFailed (failed m); LTotalTime (total_time_seconds m);
                LAverageTime a].
        rewrite <- !app_assoc. reflexivity.
    + eexists _, _. split; [reflexivity|]. cbn [events]. split.
      { rewrite <- !app_assoc. simpl app.
        apply (requests_of_prints (events s)
                 [LMetricsHeader (Py.capitalize (operation m));
                  LTotalZones (total_zones m); LSuccessful (successful m);
                  LFailed (failed m); LTotalTime (total_time_seconds m)]). }
      split; [split; [discriminate|intros [H|H]; [lia|congruence]]|].
      split; [reflexivity|]. split; [discriminate|lia].
  - eexists _, _. split; [reflexivity|]. cbn [events]. split.
    { rewrite <- !app_assoc. simpl app.
      apply (requests_of_prints (events s)
               [LMetricsHeader (Py.capitalize (operation m));
                LTotalZones (total_zones m); LSuccessful (successful m);
                LFailed (failed m); LTotalTime (total_time_seconds m);
                LSuccessRate 0]). }
    split; [split; [left; exact Hneg|reflexivity]|].
    split; [congruence|]. split.
    + intros _.
      exists [LMetricsHeader (Py.capitalize (operation m));
              LTotalZones (total_zones m); LSuccessful (successful m);
              LFailed (failed m); LTotalTime (total_time_seconds m)].
      rewrite <- !app_assoc. reflexivity.
    + intros _. rewrite <- !app_assoc. reflexivity.
Qed.

(** X15. [print_metrics] sends nothing. It raises, with [KeyError],
    exactly when the dictionary counts at least one zone and has no average
    time; otherwise its last line is the success rate, which is
    [successful / total_zones * 100], or 0 when [total_zones] is not
    positive, and for such a dictionary no time per zone and no response
    time is printed. *)
Theorem print_metrics_run (m : Metrics) (s : State E) :
  exists r s',
    print_metrics E self m s = (r, s') /\
    requests_of (events s') = requests_of (events s) /\
    (r = Ok tt <-> total_zones m <= 0 \/ average_time_per_zone m <> None) /\
    (r <> Ok tt -> r = Raise (KeyError "average_time_per_zone")) /\
    (r = Ok tt ->
     exists lines,
       events s' = events s ++ map EvPrint lines ++ [EvPrint (LSuccessRate (success_rate m))]) /\
    (total_zones m <= 0 -> events s' = events s ++ summary_lines m 0).
Proof. exact (print_metrics_result m s). Qed.

End Report.

(** ** Whole runs *)

Section WholeRuns.

Variable E : Env.

Lemma print_metrics_ok (self : Client) (m : Metrics) (s : State E) :
  average_time_per_zone m <> None ->
  exists s',
    print_metrics E self m s = (Ok tt, s') /\
    requests_of (events s') = requests_of (events s).
Proof.
  intros Hav.
  destruct (print_metrics_result E self m s) as (r & s' & Hrun & Hreq & Hiff & _).
  exists s'. split; [|exact Hreq].
  rewrite Hrun. f_equal. apply Hiff. now right.
Qed.

(** What a batch method followed by [print_metrics] does, as [main] has
    it. *)
Lemma create_and_report (self : Client) count parallel (s : State E) :
  exists names s',
    (m <- create_zones E self count parallel ;; print_metrics E self m)%monad s
    = (Ok tt, s') /\
    List.length names = Z.to_nat count /\
    Permutation (requests_of (events s'))
                (requests_of (events s) ++ map (create_request self) names).
Proof.
  destruct (create_zones_batch E self count s)
    as (names & t0 & s0 & Hlen & Hreq & Heq).
  destruct (timed_batch_spec E self (create_zone E self) (fun _ _ => True)
              (create_request self) (create_call_spec E self)
              "create" count parallel names t0 s0)
    as (outs & u1 & m & s1 & _ & _ & Hm & _ & _ & _ & _ & _ & Hav & _ & Hperm).
  rewrite <- Heq in Hm.
  destruct (print_metrics_ok self m s1) as (s' & Hp & Hreq').
  { rewrite Hav. discriminate. }
  exists names, s'. rewrite (bind_ok _ _ _ _ _ _ Hm).
  split; [exact Hp|]. split; [exact Hlen|]. now rewrite Hreq', Hperm, Hreq.
Qed.

Lemma delete_and_report (self : Client) parallel (s : State E) :
  exists r s' zs,
    (m <- delete_zones_with_prefix E self parallel ;; print_metrics E self m)%monad s
    = (r, s') /\
    Forall (fun name => exists rest, name = (zone_prefix self ++ rest)%string) zs /\
    Permutation (requests_of (events s'))
                (requests_of (events s)
                 ++ list_request self :: map (delete_request self) zs) /\
    (forall names s1,
       get_zones_with_prefix E self s = (Ok names, s1) -> r = Ok tt /\ zs = names) /\
    (forall e s1,
       get_zones_with_prefix E self s = (Raise e, s1) -> r = Raise e /\ zs = []).
Proof.
  destruct (get_zones_with_prefix E self s) as [[zs|e] s1] eqn:Hz.
  - destruct (delete_batch_requests E self parallel s s1 zs Hz)
      as (m & s2 & Hd & _ & Hpre & Hperm).
    assert (Hav : average_time_per_zone m <> None \/ total_zones m <= 0).
    { destruct zs as [|z zs].
      - rewrite (delete_zones_nothing E self parallel s s1 Hz) in Hd.
        injection Hd as <- _. right. simpl. lia.
      - destruct (delete_zones_batch E self s (z :: zs) s1 Hz)
          as (t0 & s0 & _ & Heq); [discriminate|].
        destruct (timed_batch_spec E self (delete_zone E self) (fun _ _ => True)
                    (delete_request self) (delete_call_spec E self)
                    "delete" (Py.len (z :: zs)) parallel (z :: zs) t0 s0)
          as (outs & u1 & m' & s' & _ & _ & Hm & _ & _ & _ & _ & _ & Hav & _).
        rewrite <- Heq, Hd in Hm. injection Hm as <- _.
        left. rewrite Hav. discriminate. }
    destruct (print_metrics_result E self m s2) as (r & s' & Hrun & Hreq & Hiff & _).
    assert (Hr : r = Ok tt) by (apply Hiff; tauto).
    exists r, s', zs. rewrite (bind_ok _ _ _ _ _ _ Hd).
    split; [exact Hrun|]. split; [exact Hpre|].
    split; [now rewrite Hreq|]. split.
    + intros names u [= <- _]. auto.
    + intros e u [=].
  - exists (Raise e), s1, []. unfold delete_zones_with_prefix.
    rewrite bind_assoc, (bind_raise _ _ _ _ _ _ Hz).
    split; [reflexivity|]. split; [constructor|].
    split; [now rewrite (get_zones_requests E self s _ _ Hz)|]. split.
    + intros names u [=].
    + intros e' u [= <- _]. auto.
Qed.

(** X16. The dictionary that a batch method returns can always be
    printed: [create_zones] followed by [print_metrics] never raises, and
    [delete_zones_with_prefix] followed by [print_metrics] raises only what
    the listing raised, also when nothing was found to delete. *)
Theorem batch_results_are_printable (self : Client) (count : Z)
    (parallel : bool) (s : State E) :
  (exists s',
     (m <- create_zones E self count parallel ;; print_metrics E self m)%monad s
     = (Ok tt, s'))
  /\
  (exists r s',
     (m <- delete_zones_with_prefix E self parallel ;; print_metrics E self m)%monad s
     = (r, s') /\
     (forall names s1,
        get_zones_with_prefix E self s = (Ok names, s1) -> r = Ok tt) /\
     (forall e s1,
        get_zones_with_prefix E self s = (Raise e, s1) -> r = Raise e)).
Proof.
  split.
  - destruct (create_and_report self count parallel s) as (names & s' & H & _).
    eauto.
  - destruct (delete_and_report self parallel s)
      as (r & s' & zs & H & _ & _ & Hok & Hraise).
    exists r, s'. split; [exact H|]. split.
    + intros names s1 Hz. apply (Hok names s1 Hz).
    + intros e s1 Hz. apply (Hraise e s1 Hz).
Qed.

Lemma main_started (args : Args) (s : State E) :
  (arg_create_only args && arg_delete_only args)%bool = false ->
  main E args s
  = (if arg_list_only args then
       zones <- get_zones_with_prefix E (client_of args) ;;
       print (LFound (Py.len zones) (arg_prefix args)) ;;;
       for_each E zones tt (fun _ zone => print (LZoneName zone))
     else
       (if negb (arg_delete_only args) then
          create_metrics <- create_zones E (client_of args) (arg_count args)
                                         (arg_parallel args) ;;
          print_metrics E (client_of args) create_metrics
        else ret tt) ;;;
       (if negb (arg_create_only args) then
          delete_metrics <- delete_zones_with_prefix E (client_of args)
                                                     (arg_parallel args) ;;
          print_metrics E (client_of args) delete_metrics
        else ret tt))%monad (started args s).
Proof.
  intros Hflags. unfold main. rewrite Hflags.
  unfold bind at 1, ret at 1.
  unfold PDNSLoadTest_init, bind at 1 2, emit, ret at 1.
  fold (client_of args). unfold bind at 1. rewrite print_run.
  unfold started. cbn [world events]. rewrite <- app_assoc. reflexivity.
Qed.

Lemma print_names (zones : list string) (s : State E) :
  for_each E zones tt (fun _ zone => print (LZoneName zone)) s
  = (Ok tt, mkState (world s)
                    (events s ++ map (fun zone => EvPrint (LZoneName zone)) zones)).
Proof.
  revert s. induction zones as [|z zones IH]; intros s; simpl.
  - unfold ret. rewrite app_nil_r. now destruct s.
  - unfold bind. rewrite print_run, IH. cbn [world events].
    now rewrite <- app_assoc.
Qed.

(** X17. With [--list-only] (and not both of the other two flags)
    [main] sends the listing request and no other: nothing is created and
    nothing is deleted. When the listing does not raise, [main] prints the
    number of names with the prefix and then each name, and returns. *)
Theorem list_only_only_lists (args : Args) (s : State E) :
  (arg_create_only args && arg_delete_only args)%bool = false ->
  arg_list_only args = true ->
  exists r s',
    main E args s = (r, s') /\
    requests_of (events s')
    = requests_of (events s) ++ [list_request (client_of args)] /\
    (forall zones s1,
       get_zones_with_prefix E (client_of args) (started args s) = (Ok zones, s1) ->
       r = Ok tt /\
       events s'
       = events s1 ++ EvPrint (LFound (Py.len zones) (arg_prefix args))
                   :: map (fun zone => EvPrint (LZoneName zone)) zones).
Proof.
  intros Hflags Hlist. rewrite (main_started args s Hflags), Hlist.
  assert (Hstart : requests_of (events (started args s)) = requests_of (events s)).
  { unfold started. cbn [events]. rewrite requests_of_app. simpl. apply app_nil_r. }
  destruct (get_zones_with_prefix E (client_of args) (started args s))
    as [[zones|e] s1] eqn:Hz.
  - rewrite (bind_ok _ _ _ _ _ _ Hz). unfold bind. rewrite print_run, print_names.
    eexists _, _. split; [reflexivity|]. cbn [events world]. split.
    + rewrite <- app_assoc, <- (map_map LZoneName EvPrint).
      change (events s1 ++ [EvPrint (LFound (Py.len zones) (arg_prefix args))]
              ++ map EvPrint (map LZoneName zones))
        with (events s1 ++ map EvPrint
                (LFound (Py.len zones) (arg_prefix args) :: map LZoneName zones)).
      rewrite requests_of_prints.
      rewrite (get_zones_requests E _ _ _ _ Hz). now rewrite Hstart.
    + intros zones' s1' [= <- <-]. rewrite <- app_assoc. auto.
  - rewrite (bind_raise _ _ _ _ _ _ Hz). eexists _, _. split; [reflexivity|].
    split; [|intros zones s1' [=]].
    rewrite (get_zones_requests E _ _ _ _ Hz). now rewrite Hstart.
Qed.


(** X19. With [--delete-only] alone [main] sends the listing request
    and then one DELETE per name found with the prefix, and no POST; it
    returns normally (exit status 0) unless the listing raises. *)
Theorem delete_only_never_creates (args : Args) (s : State E) :
  arg_create_only args = false -> arg_delete_only args = true ->
  arg_list_only args = false ->
  exists r s' zs,
    main E args s = (r, s') /\
    Forall (fun name => exists rest, name = (arg_prefix args ++ rest)%string) zs /\
    Permutation (requests_of (events s'))
                (requests_of (events s)
                 ++ list_request (client_of args)
                    :: map (delete_request (client_of args)) zs) /\
    (forall names s1,
       get_zones_with_prefix E (client_of args) (started args s) = (Ok names, s1) ->
       r = Ok tt /\ exit_status r = 0 /\ zs = names).
Proof.
  intros Hc Hd Hl.
  assert (Hflags : (arg_create_only args && arg_delete_only args)%bool = false)
    by (rewrite Hc, Hd; reflexivity).
  rewrite (main_started args s Hflags), Hl, Hc, Hd. simpl negb. cbv iota.
  destruct (delete_and_report (client_of args) (arg_parallel args) (started args s))
    as (r & s' & zs & Hrun & Hpre & Hperm & Hok & _).
  exists r, s', zs. unfold bind at 1, ret at 1. split; [exact Hrun|].
  split; [exact Hpre|]. split.
  - rewrite Hperm. unfold started. cbn [events].
    rewrite requests_of_app. simpl. now rewrite app_nil_r.
  - intros names s1 Hz. destruct (Hok names s1 Hz) as [-> ->]. auto.
Qed.

End WholeRuns.

(** ** Batches whose calls all end alike *)

Section Uniform.

Variable E : Env.
Variable self : Client.

Lemma uniform_counts (b : bool) (outs : list (bool * Q)) :
  Forall (fun o => fst o = b) outs ->
  successes outs = (if b then Py.len outs else 0) /\
  failures outs = (if b then 0 else Py.len outs).
Proof.
  induction 1 as [|o outs Ho _ [IHs IHf]].
  - destruct b; auto.
  - rewrite successes_cons, failures_cons, IHs, IHf, Ho.
    unfold Py.len. simpl List.length. destruct b; lia.
Qed.

Lemma uniform_creation (b : bool) (count : Z) (parallel : bool) (s : State E) :
  (forall name s,
     responded_with (request_response E s (create_request self name)) [201; 200]
     = b) ->
  0 <= count ->
  exists m s',
    create_zones E self count parallel s = (Ok m, s') /\
    total_zones m = count /\
    successful m = (if b then count else 0) /\
    failed m = (if b then 0 else count).
Proof.
  intros Hb Hcount.
  destruct (create_zones_batch E self count s)
    as (names & t0 & s0 & Hlen & _ & Heq). rewrite Heq.
  destruct (timed_batch_spec E self (create_zone E self)
              (fun _ v => fst v = b) (create_request self))
    with (op := "create") (count := count) (parallel := parallel)
         (names := names) (start_time := t0) (s := s0)
    as (outs & s1 & m & s' & _ & Hall & Hm & _ & Ht & Hs & Hf & _).
  { intros x u. destruct (create_zone_spec E self x u) as (v & u' & Hc & Hlog).
    exists v, u'. repeat split; auto.
    pose proof (create_zone_value E self x u) as Hv.
    rewrite Hc, Hb in Hv. simpl in Hv. injection Hv as ->. reflexivity. }
  assert (Houts : Forall (fun o => fst o = b) outs).
  { clear - Hall. induction Hall; constructor; auto. }
  destruct (uniform_counts b outs Houts) as [Hsucc Hfail].
  assert (Hn : Py.len outs = count).
  { unfold Py.len. rewrite <- (Forall2_length Hall), Hlen. lia. }
  exists m, s'. split; [exact Hm|]. split; [exact Ht|].
  rewrite Hs, Hf, Hsucc, Hfail, Hn. auto.
Qed.

(** X20. When the transport fails for every request, a create batch
    still runs to its end and returns its dictionary, with every zone
    counted as failed, and a delete batch, whose listing fails, returns the
    dictionary with zero counts. *)
Theorem network_down_all_fail (count : Z) (parallel : bool) (s : State E) :
  (forall w q, fst (http E w q) = None) ->
  0 <= count ->
  (exists m s',
     create_zones E self count parallel s = (Ok m, s') /\
     total_zones m = count /\ successful m = 0 /\ failed m = count)
  /\
  (exists s', delete_zones_with_prefix E self parallel s = (Ok nothing_deleted, s')).
Proof.
  intros Hdown Hcount. split.
  - apply (uniform_creation false count parallel s); [|exact Hcount].
    intros name u. unfold request_response. now rewrite Hdown.
  - destruct (get_zones_failed_listing E self s) as (s1 & Hz).
    { unfold listing_response, request_response. now rewrite Hdown. }
    rewrite (delete_zones_nothing E self parallel s s1 Hz). eauto.
Qed.

(** X21. When every POST is answered with status 201 or 200, a create
    batch of [count >= 0] names counts every zone as created and none as
    failed. *)
Theorem all_created_when_accepted (count : Z) (parallel : bool) (s : State E) :
  (forall w name,
     exists r, fst (http E w (create_request self name)) = Some r /\
               (status_code r = 201 \/ status_code r = 200)) ->
  0 <= count ->
  exists m s',
    create_zones E self count parallel s = (Ok m, s') /\
    total_zones m = count /\ successful m = count /\ failed m = 0.
Proof.
  intros Hacc Hcount.
  apply (uniform_creation true count parallel s); [|exact Hcount].
  intros name u. apply responded_with_iff; [repeat constructor|].
  unfold request_response.
  destruct (Hacc (snd (clock E (world u))) name) as (r & Hr & Hst).
  exists r. split; [exact Hr|]. simpl. lia.
Qed.

End Uniform.

(** ** Concrete runs of the further properties *)

(** The method PATCH. *)
Lemma make_request_unsupported_method_witness :
  known_method "PATCH" = false /\
  exists msg s',
    _make_request (Demo.env Runs.listed) (Demo.client 2) "PATCH" "zones" None
                  (Demo.start Runs.listed)
    = (Raise (ValueError msg), s') /\
    events s' = events (Demo.start Runs.listed) /\
    world s' = snd (clock (Demo.env Runs.listed) (world (Demo.start Runs.listed))).
Proof.
  split; [reflexivity|].
  exact (make_request_unsupported_method (Demo.env Runs.listed) (Demo.client 2)
           "PATCH" "zones" None (Demo.start Runs.listed) eq_refl).
Defined.

(** A GET that is answered, and a DELETE that gets no response. *)
Lemma make_request_returns_witness :
  known_method "GET" = true /\ known_method "DELETE" = true /\
  (exists s',
     _make_request (Demo.env Runs.listed) (Demo.client 2) "GET" "zones" None
                   (Demo.start Runs.listed)
     = (Ok (Runs.listed, 1%Q), s') /\
     events s' = [EvHttp (list_request (Demo.client 2))]) /\
  (exists s',
     _make_request (Sim.server Sim.down) (Demo.client 2) "DELETE" "zones/a." None
                   (Sim.start Sim.down)
     = (Ok (None, 3%Q), s') /\
     events s' = [EvHttp (delete_request (Demo.client 2) "a");
                  EvPrint LRequestError]).
Proof.
  split; [reflexivity|]. split; [reflexivity|]. split.
  - exact (make_request_returns (Demo.env Runs.listed) (Demo.client 2)
             "GET" "zones" None (Demo.start Runs.listed) eq_refl).
  - exact (make_request_returns (Sim.server Sim.down) (Demo.client 2)
             "DELETE" "zones/a." None (Sim.start Sim.down) eq_refl).
Defined.

(** A server that answers 503 to every request. *)
Lemma error_status_is_not_reported_witness :
  error_status (mkResponse 503 "Service Unavailable" None) /\
  (exists d s',
     create_zone (Sim.server Sim.failing) (Demo.client 2) "a.example"
                 (Sim.start Sim.failing) = (Ok (false, d), s') /\
     events s'
     = [EvHttp (create_request (Demo.client 2) "a.example");
        EvPrint (LCreateFailed "a.example." None "Unknown error")]) /\
  (exists d s',
     list_zones (Sim.server Sim.failing) (Demo.client 2) (Sim.start Sim.failing)
     = (Ok ([], d), s') /\
     events s' = [EvHttp (list_request (Demo.client 2)); EvPrint (LListFailed None)]).
Proof.
  assert (Herr : error_status (mkResponse 503 "Service Unavailable" None))
    by (unfold error_status; simpl; lia).
  destruct (error_status_is_not_reported (Sim.server Sim.failing) (Demo.client 2)
              (mkResponse 503 "Service Unavailable" None) "a.example"
              (Sim.start Sim.failing) Herr) as (Hcreate & _ & Hlist).
  split; [exact Herr|]. split; [exact (Hcreate eq_refl) | exact (Hlist eq_refl)].
Defined.

(** Four listed zones, three of them with the prefix. *)
Lemma listed_names_are_filtered_witness :
  exists s',
    get_zones_with_prefix (Demo.env Runs.listed) (Demo.client 2)
                          (Demo.start Runs.listed)
    = (Ok ["loadtest-a.com."; "loadtest-bcd.com."; "loadtest-zz.com."]%string, s') /\
    events s' = [EvHttp (list_request (Demo.client 2))].
Proof.
  destruct (listed_names_are_filtered (Demo.env Runs.listed) (Demo.client 2)
              (mkResponse 200 ""
                 (Some (map Demo.zone ["loadtest-a.com."; "other.org.";
                                       "loadtest-bcd.com."; "loadtest-zz.com."]%string)))
              (map Demo.zone ["loadtest-a.com."; "other.org.";
                              "loadtest-bcd.com."; "loadtest-zz.com."]%string)
              ["loadtest-a.com."; "other.org."; "loadtest-bcd.com.";
               "loadtest-zz.com."]%string
              (Demo.start Runs.listed) eq_refl eq_refl eq_refl)
    as (s' & Hrun & _ & Hev).
  - repeat constructor.
  - exists s'. split; [exact Hrun | exact Hev].
Defined.

(** A listing with a zone object without a name, after a zone with the
    prefix. *)
Lemma malformed_listing_aborts_delete_witness :
  exists s',
    delete_zones_with_prefix (Demo.env Sim.nameless_listing) (Demo.client 2) true
                             (Demo.start Sim.nameless_listing)
    = (Raise (KeyError "name"), s') /\
    events s' = [EvHttp (list_request (Demo.client 2))].
Proof.
  destruct (malformed_listing_aborts_delete (Demo.env Sim.nameless_listing)
              (Demo.client 2)
              (mkResponse 200 ""
                 (Some [Demo.zone "loadtest-a.com."; [("kind", "Native")]%string]))
              true (Demo.start Sim.nameless_listing) eq_refl eq_refl) as [_ H].
  apply (H [Demo.zone "loadtest-a.com."; [("kind", "Native")]%string] eq_refl).
  apply Exists_cons_tl. apply Exists_cons_hd. reflexivity.
Defined.

Lemma delete_targets_prefixed_names_witness :
  exists m s',
    delete_zones_with_prefix (Demo.env Runs.listed) (Demo.client 2) true
                             (Demo.start Runs.listed) = (Ok m, s') /\
    total_zones m = 3 /\
    Permutation (requests_of (events s'))
      (list_request (Demo.client 2)
       :: map (delete_request (Demo.client 2))
              ["loadtest-a.com."; "loadtest-bcd.com."; "loadtest-zz.com."]%string).
Proof.
  destruct (delete_targets_prefixed_names (Demo.env Runs.listed) (Demo.client 2) true
              (Demo.start Runs.listed)
              (snd (get_zones_with_prefix (Demo.env Runs.listed) (Demo.client 2)
                      (Demo.start Runs.listed)))
              ["loadtest-a.com."; "loadtest-bcd.com."; "loadtest-zz.com."]%string)
    as (m & s' & Hrun & Ht & _ & Hperm).
  - vm_compute. reflexivity.
  - exists m, s'. split; [exact Hrun|]. split; [exact Ht | exact Hperm].
Defined.

Lemma statistics_are_ordered_witness :
  0 < 3 /\
  exists m s' rt,
    create_zones (Demo.env Runs.listed) (Demo.client 2) 3 true
                 (Demo.start Runs.listed) = (Ok m, s') /\
    response_times m = Some rt /\
    (rt_min rt <= rt_median rt <= rt_max rt)%Q /\
    (rt_min rt <= rt_avg rt <= rt_max rt)%Q.
Proof.
  assert (H : 0 < 3) by lia.
  split; [exact H|].
  exact (proj1 (statistics_are_ordered (Demo.env Runs.listed) (Demo.client 2) 3 true
                  (Demo.start Runs.listed) H)).
Defined.

Lemma nonpositive_count_creates_nothing_witness :
  -2 <= 0 /\
  exists m s',
    create_zones (Demo.env Runs.listed) (Demo.client 2) (-2) true
                 (Demo.start Runs.listed) = (Ok m, s') /\
    total_zones m = -2 /\ successful m = 0 /\ failed m = 0 /\
    average_time_per_zone m = Some 0%Q /\
    response_times m = Some zero_times /\
    events s' = [EvPrint (LCreating (-2) "loadtest-")].
Proof.
  assert (H : -2 <= 0) by lia.
  split; [exact H|].
  exact (nonpositive_count_creates_nothing (Demo.env Runs.listed) (Demo.client 2)
           (-2) true (Demo.start Runs.listed) H).
Defined.


Lemma list_only_only_lists_witness :
  exists r s',
    main (Demo.env Runs.listed) (Sim.args false false true) (Demo.start Runs.listed)
    = (r, s') /\
    requests_of (events s')
    = [list_request (client_of (Sim.args false false true))].
Proof.
  destruct (list_only_only_lists (Demo.env Runs.listed) (Sim.args false false true)
              (Demo.start Runs.listed) eq_refl eq_refl) as (r & s' & Hrun & Hreq & _).
  exists r, s'. split; [exact Hrun | exact Hreq].
Defined.


Lemma delete_only_never_creates_witness :
  exists r s' zs,
    main (Demo.env Runs.listed) (Sim.args false true false) (Demo.start Runs.listed)
    = (r, s') /\
    Permutation (requests_of (events s'))
      (list_request (client_of (Sim.args false true false))
       :: map (delete_request (client_of (Sim.args false true false))) zs).
Proof.
  destruct (delete_only_never_creates (Demo.env Runs.listed)
              (Sim.args false true false) (Demo.start Runs.listed)
              eq_refl eq_refl eq_refl) as (r & s' & zs & Hrun & _ & Hperm & _).
  exists r, s', zs. split; [exact Hrun | exact Hperm].
Defined.

(** A server that never responds, and one that answers 201 to everything. *)
Lemma network_down_all_fail_witness :
  (forall w q, fst (http (Sim.server Sim.down) w q) = None) /\ 0 <= 3 /\
  exists m s',
    create_zones (Sim.server Sim.down) (Demo.client 2) 3 true (Sim.start Sim.down)
    = (Ok m, s') /\
    total_zones m = 3 /\ successful m = 0 /\ failed m = 3.
Proof.
  assert (Hdown : forall w q, fst (http (Sim.server Sim.down) w q) = None)
    by (intros w q; reflexivity).
  assert (H : 0 <= 3) by lia.
  split; [exact Hdown|]. split; [exact H|].
  exact (proj1 (network_down_all_fail (Sim.server Sim.down) (Demo.client 2) 3 true
                  (Sim.start Sim.down) Hdown H)).
Defined.

Lemma all_created_when_accepted_witness :
  0 <= 3 /\
  exists m s',
    create_zones (Sim.server Sim.accepting) (Demo.client 2) 3 false
                 (Sim.start Sim.accepting) = (Ok m, s') /\
    total_zones m = 3 /\ successful m = 3 /\ failed m = 0.
Proof.
  assert (H : 0 <= 3) by lia.
  split; [exact H|].
  apply (all_created_when_accepted (Sim.server Sim.accepting) (Demo.client 2) 3
           false (Sim.start Sim.accepting)); [|exact H].
  intros w name. exists (mkResponse 201 "" None). split; [reflexivity|]. now left.
Defined.
